(** * Card auto-refill service (app.py): shallow embedding and properties

    The service keeps two process-wide balances, a card balance in USD and a
    wallet balance in ETH, and exposes two endpoints: [GET /status] and
    [POST /use-card].  This development embeds the functions of [app.py] as
    computations in a state-and-exception monad and states the properties of
    the service's specification about them.

    Numbers.  The Python code computes with [float].  A float is modelled
    by the rational number it holds ([Q]), and an arithmetic operation on
    floats by the mathematical one: [round(x, n)] rounds the exact value
    half-to-even, and the rounding error of [+], [-], [*] and [/] is left
    out.  The amount of a request is different: it is a [Decimal] of any
    precision, and [float(request.amount)] (line 244) is the double nearest
    to it, which decides the checks of [use_card]; that conversion is
    modelled bit for bit by [Py.float].  The float [inf] is modelled by
    [2 ** 1024], which compares with every double as [inf] does; the
    balances are assumed to hold doubles, and [nan] is outside the model.
    The conversions [float(..)] of lines 89 and 98 act on a gas price that
    is a whole number of wei: their rounding error is left out like that of
    the arithmetic, which matters to the range check of [to_wei] only for a
    gas price within a factor [1 + 2 ** -50] of [2 ** 256] wei.  Concrete
    inputs used below are chosen away from rounding ties.

    Strings.  Python [str] values are modelled by their UTF-8 encoding, a
    string of bytes. *)

From Stdlib Require Import ZArith QArith Qround Qabs Lqa Lia.
From Stdlib Require Import Bool List String Ascii.
Import ListNotations.

Open Scope Q_scope.

(** ** Python built-ins on numbers *)

Module Py.

(** [x < y] on numbers, as a boolean. *)
Definition ltb (x y : Q) : bool := negb (Qle_bool y x).

(** [min(a, b)]: the first argument unless the second is smaller. *)
Definition min (a b : Q) : Q := if ltb b a then b else a.

(** [max(a, b)]: the first argument unless the second is larger. *)
Definition max (a b : Q) : Q := if ltb a b then b else a.

(** Nearest integer, ties to the even neighbour. *)
Definition round_half_even (q : Q) : Z :=
  let f := Qfloor q in
  match Qcompare (q - inject_Z f) (1 # 2) with
  | Lt => f
  | Gt => (f + 1)%Z
  | Eq => if Z.even f then f else (f + 1)%Z
  end.

(** [round(x, ndigits)]. *)
Definition round (x : Q) (ndigits : nat) : Q :=
  let scale := inject_Z (10 ^ Z.of_nat ndigits) in
  inject_Z (round_half_even (x * scale)) / scale.

(** [abs(x)]. *)
Definition abs (x : Q) : Q := Qabs x.

(** [2 ** e] for an integer [e]. *)
Definition pow2 (e : Z) : Q :=
  if (0 <=? e)%Z then inject_Z (2 ^ e) else 1 # Z.to_pos (2 ^ (- e)).

(** The binary exponent of a positive number: the [e] with
    [2 ** e <= x < 2 ** (e + 1)]. *)
Definition binade (x : Q) : Z :=
  let e := (Z.log2 (Qnum x) - Z.log2 (Zpos (Qden x)))%Z in
  if negb (Qle_bool (pow2 e) x) then (e - 1)%Z else e.

(** The double nearest to a positive number, ties to the even significand
    (53 bits, exponents from -1022, subnormals below); [2 ** 1024] stands
    for [inf]. *)
Definition nearest_double (x : Q) : Q :=
  let e := Z.max (binade x) (-1022) in
  let ulp := pow2 (e - 52) in
  let r := Qred (inject_Z (round_half_even (x / ulp)) * ulp) in
  if Qle_bool (pow2 1024) r then pow2 1024 else r.

(** [float(d)] for a finite [Decimal] [d]: the nearest double. *)
Definition float (x : Q) : Q :=
  match Qcompare x 0 with
  | Eq => 0
  | Gt => nearest_double x
  | Lt => - nearest_double (- x)
  end.
Arguments float : simpl never.

End Py.

(** ** Python built-ins on strings *)

Module Str.

Open Scope string_scope.

(** The one-byte characters [str.strip] removes: U+0009 to U+000D, U+001C
    to U+001F and the space. *)
Definition is_space (c : ascii) : bool :=
  let n := nat_of_ascii c in
  ((9 <=? n) && (n <=? 13) || (28 <=? n) && (n <=? 32))%nat.

(** The two-byte characters [str.strip] removes: U+0085 and U+00A0. *)
Definition is_space2 (c1 c2 : ascii) : bool :=
  let n1 := nat_of_ascii c1 in
  let n2 := nat_of_ascii c2 in
  ((n1 =? 194) && ((n2 =? 133) || (n2 =? 160)))%nat.

(** The three-byte characters [str.strip] removes: U+1680, U+2000 to
    U+200A, U+2028, U+2029, U+202F, U+205F and U+3000. *)
Definition is_space3 (c1 c2 c3 : ascii) : bool :=
  let n1 := nat_of_ascii c1 in
  let n2 := nat_of_ascii c2 in
  let n3 := nat_of_ascii c3 in
  ((n1 =? 225) && (n2 =? 154) && (n3 =? 128)
   || (n1 =? 226) && (n2 =? 128)
      && ((128 <=? n3) && (n3 <=? 138) || (n3 =? 168) || (n3 =? 169) || (n3 =? 175))
   || (n1 =? 226) && (n2 =? 129) && (n3 =? 159)
   || (n1 =? 227) && (n2 =? 128) && (n3 =? 128))%nat.

Fixpoint lstrip (s : string) : string :=
  match s with
  | EmptyString => EmptyString
  | String c1 s1 =>
      if is_space c1 then lstrip s1
      else
        match s1 with
        | EmptyString => s
        | String c2 s2 =>
            if is_space2 c1 c2 then lstrip s2
            else
              match s2 with
              | EmptyString => s
              | String c3 s3 => if is_space3 c1 c2 c3 then lstrip s3 else s
              end
        end
  end.

Fixpoint rstrip (s : string) : string :=
  match s with
  | EmptyString => EmptyString
  | String c s' =>
      match rstrip s' with
      | EmptyString => if is_space c then EmptyString else String c EmptyString
      | String c2 EmptyString =>
          if is_space2 c c2 then EmptyString else String c (String c2 EmptyString)
      | String c2 (String c3 EmptyString) =>
          if is_space3 c c2 c3 then EmptyString
          else String c (String c2 (String c3 EmptyString))
      | r => String c r
      end
  end.

(** [s.strip()]. *)
Definition strip (s : string) : string := rstrip (lstrip s).

(** [s.split(sep)] for a one-character separator. *)
Fixpoint split (sep : ascii) (s : string) : list string :=
  match s with
  | EmptyString => [EmptyString]
  | String c s' =>
      if Ascii.eqb c sep then EmptyString :: split sep s'
      else match split sep s' with
           | [] => [String c EmptyString]
           | w :: ws => String c w :: ws
           end
  end.

(** [s.startswith(p)]. *)
Definition startswith (s p : string) : bool := String.prefix p s.

(** [s.replace(old, "")] for a non-empty [old]: the occurrences of [old]
    are removed from left to right; [skip] counts the characters of an
    occurrence still to drop. *)
Fixpoint remove_from (old : string) (skip : nat) (s : string) : string :=
  match s with
  | EmptyString => EmptyString
  | String c s' =>
      match skip with
      | S k => remove_from old k s'
      | O => if String.prefix old s
             then remove_from old (String.length old - 1) s'
             else String c (remove_from old 0 s')
      end
  end.

Definition remove (s old : string) : string := remove_from old 0 s.

Definition lower_ascii (c : ascii) : ascii :=
  let n := nat_of_ascii c in
  if ((65 <=? n) && (n <=? 90))%nat then ascii_of_nat (n + 32) else c.

(** [s.lower()] on the letters A to Z.  The other characters that
    [str.lower] changes have no ASCII letter in their lower case, except
    U+0130 and U+212A (an i and a k): none of them makes or breaks a [buy],
    a [sell] or an [eth]. *)
Fixpoint lower (s : string) : string :=
  match s with
  | EmptyString => EmptyString
  | String c s' => String (lower_ascii c) (lower s')
  end.

(** [sub in s]. *)
Fixpoint contains (sub s : string) : bool :=
  String.prefix sub s ||
  match s with
  | EmptyString => false
  | String _ s' => contains sub s'
  end.

End Str.

(** ** Exceptions and message texts

    Messages built with f-strings are kept as trees, so that the numbers a
    message names stay visible: [Fixed q n] is [q] printed with [n]
    decimals, [Repr q] is [q] printed by default, [StrExn e] is [str(e)]. *)

Inductive text : Type :=
| Lit (s : string)
| Fixed (q : Q) (decimals : nat)
| Repr (q : Q)
| Cat (a b : text)
| StrExn (e : exn)
with exn : Type :=
| HTTPException (status_code : Z) (detail : text)
| ValueError (msg : text)
| NameError (name : string)
| ZeroDivisionError
| UpstreamError (what : string).

Inductive outcome (A : Type) : Type :=
| Return (a : A)
| Raise (e : exn).
Arguments Return {A} a.
Arguments Raise {A} e.

(** ** The process state and the outside world *)

(** The two globals of [app.py], and a counter of the calls made to
    external services so far (each call may be answered differently). *)
Record World : Type := mkWorld {
  CURRENT_CARD_BALANCE : Q;
  CURRENT_ETH_BALANCE : Q;
  clock : nat
}.

(** What the external collaborators answer to the call number [n]; [None]
    is a failed call (the client library raises). *)
Record Env : Type := mkEnv {
  eth_gas_price : nat -> option Z;        (* w3.eth.gas_price, in wei *)
  latestRoundData : nat -> option Z;      (* the [answer] field of the price feed *)
  chat_complete : nat -> option string;   (* response.choices[0].message.content *)
  urandom_hex : nat -> string;            (* os.urandom(32).hex() *)
  float_of_str : string -> option Q       (* float(s); None is ValueError *)
}.

(** Computations: state passing, with the state kept when an exception is
    raised (a Python exception does not undo assignments to globals). *)
Definition M (A : Type) : Type := World -> World * outcome A.

Definition ret {A} (a : A) : M A := fun w => (w, Return a).

Definition raise {A} (e : exn) : M A := fun w => (w, Raise e).

Definition bind {A B} (m : M A) (k : A -> M B) : M B :=
  fun w =>
    match m w with
    | (w', Return a) => k a w'
    | (w', Raise e) => (w', Raise e)
    end.

(** [try: m  except Exception as e: h e]. *)
Definition try_except {A} (m : M A) (h : exn -> M A) : M A :=
  fun w =>
    match m w with
    | (w', Return a) => (w', Return a)
    | (w', Raise e) => h e w'
    end.

Notation "x <- m ;; k" := (bind m (fun x => k))
  (at level 61, m at next level, right associativity).
Notation "m ;;; k" := (bind m (fun _ => k))
  (at level 61, right associativity).

Definition get_card : M Q := fun w => (w, Return (CURRENT_CARD_BALANCE w)).
Definition get_eth : M Q := fun w => (w, Return (CURRENT_ETH_BALANCE w)).

Definition set_card (v : Q) : M unit :=
  fun w => (mkWorld v (CURRENT_ETH_BALANCE w) (clock w), Return tt).

Definition set_eth (v : Q) : M unit :=
  fun w => (mkWorld (CURRENT_CARD_BALANCE w) v (clock w), Return tt).

(** One call to an external service. *)
Definition external {A} (what : string) (answer : nat -> option A) : M A :=
  fun w =>
    let w' := mkWorld (CURRENT_CARD_BALANCE w) (CURRENT_ETH_BALANCE w) (S (clock w)) in
    match answer (clock w) with
    | Some a => (w', Return a)
    | None => (w', Raise (UpstreamError what))
    end.

(** [a / b] on floats. *)
Definition py_div (a b : Q) : M Q :=
  if Qeq_bool b 0 then raise ZeroDivisionError else ret (a / b).

(** ** Constants of the module *)

Definition CARD_MIN_THRESHOLD : Q := 100.
Definition CARD_TARGET_BALANCE : Q := 200.
Definition MINIMUM_PROFITABLE_USD : Q := 50.
Definition GAS_LIMIT : Q := 21000.
Definition PROFIT_MARGIN : Q := 105 # 100.

(** The names bound at module level in [app.py]. *)
Definition module_globals : list string :=
  [ "load_dotenv"; "FastAPI"; "staticfiles"; "Request"; "JSONResponse";
    "HTMLResponse"; "HTTPException"; "BaseModel"; "validator"; "json"; "os";
    "random"; "logging"; "Decimal"; "Mistral"; "Web3"; "app";
    "CARD_MIN_THRESHOLD"; "CARD_TARGET_BALANCE"; "MISTRAL_API_KEY";
    "INFURA_URL"; "PRICE_FEED_ADDRESS"; "MINIMUM_PROFITABLE_USD"; "GAS_LIMIT";
    "PROFIT_MARGIN"; "mistral_client"; "w3"; "CURRENT_CARD_BALANCE";
    "CURRENT_ETH_BALANCE"; "TransactionRequest"; "TradingSuggestion";
    "TransactionResult"; "get_eth_price"; "get_gas_price";
    "calculate_transaction_cost"; "calculate_minimum_profitable_amount";
    "get_ai_trading_suggestion"; "read_root"; "status"; "use_card";
    "auto_sell_eth_for_card"; "simulate_eth_sale"; "auto_topup";
    "get_card_balance"; "simulate_card_transaction"; "check_card_balance"
  ]%string.

(** Reading a name that is not local to the function: it has to be bound at
    module level (no built-in is called [price_feed_address]). *)
Definition load_global (name : string) : M unit :=
  if existsb (String.eqb name) module_globals
  then ret tt
  else raise (NameError name).

(** ** Unit conversions of web3 ([w3.to_wei], [w3.from_wei]) *)

Definition MAX_WEI : Z := (2 ^ 256 - 1)%Z.
Definition gwei : Z := (10 ^ 9)%Z.
Definition ether : Z := (10 ^ 18)%Z.

(** [from_wei(number, unit)]: [number / unit], a [ValueError] outside
    [0 .. 2**256 - 1]. *)
Definition from_wei (number : Z) (unit_value : Z) : M Q :=
  if (number =? 0)%Z then ret 0
  else if ((number <? 0) || (MAX_WEI <? number))%Z
       then raise (ValueError (Lit "value must be between 1 and 2**256 - 1"))
       else ret (inject_Z number / inject_Z unit_value).

(** [to_wei(number, unit)]: [number * unit] truncated to an integer, a
    [ValueError] outside [0 .. 2**256 - 1]. *)
Definition to_wei (number : Q) (unit_value : Z) : M Z :=
  if Qeq_bool number 0 then ret 0%Z
  else
    let result_value := number * inject_Z unit_value in
    if Py.ltb result_value 0 || Py.ltb (inject_Z MAX_WEI) result_value
    then raise (ValueError (Lit "Resulting wei value must be between 1 and 2**256 - 1"))
    else ret (Qfloor result_value).

(** The dictionary returned by [get_ai_trading_suggestion]. *)
Record TradingSuggestion : Type := mkSuggestion {
  action : string;
  amount : Q;
  reason : text
}.

(** The body of [POST /use-card] (pydantic model [TransactionRequest]). *)
Module TransactionRequest.
Record t : Type := make {
  amount : Q;
  currency : string;
  wallet_address : option string
}.

Definition amount_must_be_positive (v : Q) : outcome Q :=
  if Qle_bool v 0 then Raise (ValueError (Lit "Amount must be positive"))
  else Return v.

Definition currency_must_be_valid (v : string) : outcome string :=
  if existsb (String.eqb v) ["ETH"; "USD"]%string then Return v
  else Raise (ValueError (Lit "Currency must be ETH or USD")).

(** Construction of the model from the request body: both validators run. *)
Definition validate (body : t) : outcome t :=
  match amount_must_be_positive (amount body) with
  | Raise e => Raise e
  | Return a =>
      match currency_must_be_valid (currency body) with
      | Raise e => Raise e
      | Return c => Return (make a c (wallet_address body))
      end
  end.
End TransactionRequest.

(** The dictionary returned by [auto_sell_eth_for_card]. *)
Module SaleResult.
Record t : Type := make {
  status : string;
  eth_sold : Q;
  usd_received : Q;
  tx_hash : string;
  ai_suggestion : TradingSuggestion
}.
End SaleResult.

(** The dictionary returned by [auto_topup]. *)
Module TopupResult.
Record t : Type := make {
  status : string;
  amount_added : Q;
  eth_sold : Q;
  tx_hash : string;
  ai_suggestion : TradingSuggestion
}.
End TopupResult.

(** The dictionary returned by [check_card_balance]. *)
Module Decision.
Record t : Type := make {
  action : string;
  amount : Q;
  reason : text
}.
End Decision.

(** The JSON content of a successful [POST /use-card]. *)
Module CardResponse.
Record t : Type := make {
  status : string;
  amount : Q;
  tx_hash : option string;
  new_balance : Q;
  new_metamask_balance_usd : Q;
  new_eth_balance : Q;
  min_profitable_amount : Q
}.
End CardResponse.

(** The JSON content of a successful [GET /status]. *)
Module StatusResponse.
Record t : Type := make {
  card_balance : Q;
  eth_balance : Q;
  eth_price : Q;
  gas_price_gwei : Q;
  min_profitable_amount : Q;
  metamask_balance_usd : Q;
  trading_suggestion : TradingSuggestion;
  decision : Decision.t
}.
End StatusResponse.

(** ** Message texts of the errors the service raises *)

Definition amount_too_low (minimum : Q) : text :=
  Cat (Lit "Amount too low for profitable transaction. Minimum amount: $")
    (Fixed minimum 2).

Definition insufficient_card : text := Lit "Insufficient card balance".

Definition insufficient_eth (need have : Q) : text :=
  Cat (Lit "Insufficient ETH balance. Need ")
    (Cat (Fixed need 4) (Cat (Lit " ETH but have ") (Cat (Fixed have 4) (Lit " ETH")))).

Definition ai_suggests_holding (why : text) : text :=
  Cat (Lit "AI suggests holding: ") why.

Section Service.

Variable env : Env.

(** ** Market data *)

Definition get_eth_price : M Q :=
  try_except
    (load_global "price_feed_address" ;;;
     answer <- external "latestRoundData" (latestRoundData env) ;;
     ret (inject_Z answer / inject_Z (10 ^ 8)))
    (fun _ => ret 2000).

(** The gas price in gwei; [float(gas_price_gwei)] (line 89) is the
    rational itself. *)
Definition get_gas_price : M Q :=
  try_except
    (gas_price_wei <- external "gas_price" (eth_gas_price env) ;;
     from_wei gas_price_wei gwei)
    (fun _ => ret 50).

(** ** Profitability *)

(** The conversions [float(..)] of lines 96 to 103 are the rationals
    themselves: the gas price goes to wei and back to ether without the
    rounding of the doubles in between. *)
Definition calculate_transaction_cost (eth_price : Q) : M Q :=
  try_except
    (gas_price_gwei <- get_gas_price ;;
     wei <- to_wei gas_price_gwei gwei ;;
     gas_price_eth <- from_wei wei ether ;;
     let transaction_fee_eth := gas_price_eth * GAS_LIMIT in
     let transaction_fee_usd := transaction_fee_eth * eth_price in
     ret transaction_fee_usd)
    (fun _ => ret 5).

Definition calculate_minimum_profitable_amount (eth_price : Q) : M Q :=
  try_except
    (tx_cost_usd <- calculate_transaction_cost eth_price ;;
     let min_amount := Py.max MINIMUM_PROFITABLE_USD (tx_cost_usd * PROFIT_MARGIN) in
     ret (Py.round min_amount 2))
    (fun _ => ret MINIMUM_PROFITABLE_USD).

(** ** Advisory engine *)

(** The loop over the lines of the reply (lines 162-171); the triple is
    [(action, amount, reason)], [float] may raise. *)
Fixpoint parse_lines (lines : list string) (acc : string * Q * text)
  : outcome (string * Q * text) :=
  match lines with
  | [] => Return acc
  | line :: rest =>
      let '(action, amount, reason) := acc in
      if Str.startswith line "ACTION:" then
        parse_lines rest
          (Str.lower (Str.strip (Str.remove line "ACTION:")), amount, reason)
      else if Str.startswith line "AMOUNT:" then
        let amount_str := Str.lower (Str.strip (Str.remove line "AMOUNT:")) in
        let amount_str :=
          if Str.contains "eth" amount_str
          then Str.strip (Str.remove amount_str "eth")
          else amount_str in
        match float_of_str env amount_str with
        | Some amount' => parse_lines rest (action, amount', reason)
        | None =>
            Raise (ValueError
                     (Cat (Lit "could not convert string to float: ") (Lit amount_str)))
        end
      else if Str.startswith line "REASON:" then
        parse_lines rest (action, amount, Lit (Str.strip (Str.remove line "REASON:")))
      else parse_lines rest acc
  end.

(** "Validate and adjust the suggestion" (lines 173-185). *)
Definition validate_and_adjust (balance_eth : Q) (action : string) (amount : Q)
  : string * Q :=
  let '(action, amount) :=
    if String.eqb action "buy" then (action, Py.min (1 # 2) (balance_eth * (1 # 2)))
    else if String.eqb action "sell" then (action, Py.min amount (balance_eth * (1 # 2)))
    else ("hold"%string, 0) in
  (action, Py.round (Py.abs amount) 4).

Definition get_ai_trading_suggestion (balance_eth eth_price : Q)
  : M TradingSuggestion :=
  try_except
    (suggestion_text <- external "chat.complete" (chat_complete env) ;;
     let lines := Str.split "010"%char (Str.strip suggestion_text) in
     match parse_lines lines ("hold"%string, 0, Lit "Unable to parse AI suggestion") with
     | Return (action, amount, reason) =>
         let '(action, amount) := validate_and_adjust balance_eth action amount in
         ret (mkSuggestion action amount reason)
     | Raise e =>
         ret (mkSuggestion "hold" 0
                (Cat (Lit "Error parsing AI suggestion: ") (StrExn e)))
     end)
    (fun e =>
       ret (mkSuggestion "hold" 0
              (Cat (Lit "Unable to get AI suggestion: ") (StrExn e)))).

(** ** Ledger *)

Definition get_card_balance : M Q := get_card.

Definition simulate_card_transaction (amount_usd : Q) : M (option string) :=
  try_except
    (hex <- external "urandom" (fun n => Some (urandom_hex env n)) ;;
     ret (Some ("0x" ++ hex)%string))
    (fun _ => ret None).

Definition simulate_eth_sale (eth_amount : Q) : M string :=
  try_except
    (eth <- get_eth ;;
     set_eth (eth - eth_amount) ;;;
     hex <- external "urandom" (fun n => Some (urandom_hex env n)) ;;
     ret ("0x" ++ hex)%string)
    (fun e => raise e).

Definition check_card_balance (balance : Q) : Decision.t :=
  if Py.ltb balance CARD_MIN_THRESHOLD then
    let topup_amount := CARD_TARGET_BALANCE - balance in
    Decision.make "top-up" (Py.round topup_amount 2)
      (Cat (Lit "Balance $")
         (Cat (Repr balance)
            (Cat (Lit " below minimum threshold $") (Repr CARD_MIN_THRESHOLD))))
  else
    Decision.make "skip" 0
      (Cat (Lit "Balance $")
         (Cat (Repr balance)
            (Cat (Lit " above minimum threshold $") (Repr CARD_MIN_THRESHOLD)))).

(** ** [GET /status] *)

Definition status : M StatusResponse.t :=
  try_except
    (card_balance <- get_card_balance ;;
     eth_price <- get_eth_price ;;
     gas_price <- get_gas_price ;;
     min_profitable_amount <- calculate_minimum_profitable_amount eth_price ;;
     eth_balance <- get_eth ;;
     let metamask_balance_usd := eth_balance * eth_price in
     trading_suggestion <- get_ai_trading_suggestion eth_balance eth_price ;;
     let decision := check_card_balance card_balance in
     ret (StatusResponse.make card_balance eth_balance eth_price gas_price
            min_profitable_amount metamask_balance_usd trading_suggestion decision))
    (fun _ => raise (HTTPException 500 (Lit "Internal Server Error"))).

(** ** Replenishment, over any advisory engine

    [auto_sell_eth_for_card] asks the advisory engine before it sells.
    The three functions of the replenishment path are first written over
    an arbitrary engine [advise]; the service's own are their instances at
    [get_ai_trading_suggestion]. *)

Section Replenishment.

Variable advise : Q -> Q -> M TradingSuggestion.

Definition auto_sell_eth_for_card_with (target_usd_amount : Q) : M SaleResult.t :=
  try_except
    (eth_price <- get_eth_price ;;
     gas_cost <- calculate_transaction_cost eth_price ;;
     let required_amount := target_usd_amount * PROFIT_MARGIN + gas_cost in
     eth_amount <- py_div required_amount eth_price ;;
     eth <- get_eth ;;
     (if Py.ltb eth eth_amount
      then raise (ValueError (insufficient_eth eth_amount eth))
      else ret tt) ;;;
     eth <- get_eth ;;
     suggestion <- advise eth eth_price ;;
     (if String.eqb (action suggestion) "hold" && Py.ltb eth_amount (amount suggestion)
      then raise (ValueError (ai_suggests_holding (reason suggestion)))
      else ret tt) ;;;
     tx_hash <- simulate_eth_sale eth_amount ;;
     ret (SaleResult.make "success" eth_amount target_usd_amount tx_hash suggestion))
    (fun e => raise e).

Definition auto_topup_with (amount_usd : Q) : M (option TopupResult.t) :=
  try_except
    (sale_result <- auto_sell_eth_for_card_with amount_usd ;;
     if String.eqb (SaleResult.status sale_result) "success" then
       card <- get_card ;;
       set_card (card + amount_usd) ;;;
       ret (Some (TopupResult.make "success" amount_usd
                    (SaleResult.eth_sold sale_result)
                    (SaleResult.tx_hash sale_result)
                    (SaleResult.ai_suggestion sale_result)))
     else ret None)
    (fun e => raise e).

Definition use_card_with (request : TransactionRequest.t) : M CardResponse.t :=
  try_except
    (let amount_usd := Py.float (TransactionRequest.amount request) in
     eth_price <- get_eth_price ;;
     min_profitable_amount <- calculate_minimum_profitable_amount eth_price ;;
     (if Py.ltb amount_usd min_profitable_amount
      then raise (HTTPException 400 (amount_too_low min_profitable_amount))
      else ret tt) ;;;
     card <- get_card ;;
     (if Py.ltb card amount_usd
      then raise (HTTPException 400 insufficient_card)
      else ret tt) ;;;
     tx_hash <- simulate_card_transaction amount_usd ;;
     card <- get_card ;;
     set_card (card - amount_usd) ;;;
     card <- get_card ;;
     (if Py.ltb card CARD_MIN_THRESHOLD then
        card <- get_card ;;
        minimum <- calculate_minimum_profitable_amount eth_price ;;
        let min_topup := Py.max (CARD_TARGET_BALANCE - card) (minimum * 2) in
        auto_topup_with min_topup ;;;
        card <- get_card ;;
        set_card (card + min_topup) ;;;
        topup_eth_amount <- py_div min_topup eth_price ;;
        eth <- get_eth ;;
        set_eth (eth - topup_eth_amount)
      else ret tt) ;;;
     eth <- get_eth ;;
     let metamask_balance_usd := eth * eth_price in
     card <- get_card ;;
     eth <- get_eth ;;
     ret (CardResponse.make "Card Transaction Successful" amount_usd tx_hash
            card metamask_balance_usd eth min_profitable_amount))
    (fun e => raise (HTTPException 500 (StrExn e))).

End Replenishment.

Definition auto_sell_eth_for_card : Q -> M SaleResult.t :=
  auto_sell_eth_for_card_with get_ai_trading_suggestion.

Definition auto_topup : Q -> M (option TopupResult.t) :=
  auto_topup_with get_ai_trading_suggestion.

Definition use_card : TransactionRequest.t -> M CardResponse.t :=
  use_card_with get_ai_trading_suggestion.

(** ** The two endpoints as the framework serves them *)

Inductive request : Type :=
| GET_status
| POST_use_card (body : TransactionRequest.t).

(** The status code of the HTTP response: 200 for a returned content, the
    code of an [HTTPException], 500 for any other exception. *)
Definition status_code_of {A} (r : outcome A) : Z :=
  match r with
  | Return _ => 200
  | Raise (HTTPException code _) => code
  | Raise _ => 500
  end%Z.

(** A body that fails validation is answered 422 by the framework and the
    handler is not called. *)
Definition post_use_card (body : TransactionRequest.t) : M CardResponse.t :=
  match TransactionRequest.validate body with
  | Raise e => raise (HTTPException 422 (StrExn e))
  | Return req => use_card req
  end.

(** One request: the state after it and the status code answered. *)
Definition serve (r : request) (w : World) : World * Z :=
  match r with
  | GET_status => let (w', o) := status w in (w', status_code_of o)
  | POST_use_card body => let (w', o) := post_use_card body w in (w', status_code_of o)
  end.

(** A sequence of requests, one after the other. *)
Fixpoint serve_all (rs : list request) (w : World) : World :=
  match rs with
  | [] => w
  | r :: rs' => serve_all rs' (fst (serve r w))
  end.

End Service.

(** The state at process start (lines 41-42). *)
Definition seed : World := mkWorld 200 (2 # 10) 0.

(** ** Vocabulary of the properties *)

(** The state after one more call to an external service. *)
Definition tick (w : World) : World :=
  mkWorld (CURRENT_CARD_BALANCE w) (CURRENT_ETH_BALANCE w) (S (clock w)).

(** Two states with the same card and wallet balances. *)
Definition same_balances (w w' : World) : Prop :=
  CURRENT_CARD_BALANCE w' = CURRENT_CARD_BALANCE w /\
  CURRENT_ETH_BALANCE w' = CURRENT_ETH_BALANCE w.

(** A computation that never changes the balances. *)
Definition preserves {A} (m : M A) : Prop :=
  forall w, same_balances w (fst (m w)).

(** [use_card] run up to the point where the top-up asks the advisory
    engine: lines 244-268 of [use_card], then [auto_topup] entering
    [auto_sell_eth_for_card] and its lines 294-303.  It returns the top-up
    amount and the crypto amount of the sale, or [None] when the withdrawal
    leaves the card at or above the threshold. *)
Definition until_advice (env : Env) (request : TransactionRequest.t)
  : M (option (Q * Q)) :=
  let amount_usd := Py.float (TransactionRequest.amount request) in
  eth_price <- get_eth_price env ;;
  min_profitable_amount <- calculate_minimum_profitable_amount env eth_price ;;
  (if Py.ltb amount_usd min_profitable_amount
   then raise (HTTPException 400 (amount_too_low min_profitable_amount))
   else ret tt) ;;;
  card <- get_card ;;
  (if Py.ltb card amount_usd
   then raise (HTTPException 400 insufficient_card)
   else ret tt) ;;;
  simulate_card_transaction env amount_usd ;;;
  card <- get_card ;;
  set_card (card - amount_usd) ;;;
  card <- get_card ;;
  if Py.ltb card CARD_MIN_THRESHOLD then
    minimum <- calculate_minimum_profitable_amount env eth_price ;;
    let min_topup := Py.max (CARD_TARGET_BALANCE - card) (minimum * 2) in
    sale_price <- get_eth_price env ;;
    gas_cost <- calculate_transaction_cost env sale_price ;;
    eth_amount <- py_div (min_topup * PROFIT_MARGIN + gas_cost) sale_price ;;
    eth <- get_eth ;;
    (if Py.ltb eth eth_amount
     then raise (ValueError (insufficient_eth eth_amount eth))
     else ret tt) ;;;
    ret (Some (min_topup, eth_amount))
  else ret None.


(** An outside world in which every external service is down: the gas and
    price oracles and the advisory service fail, [float] is never reached. *)
Definition offline : Env :=
  mkEnv (fun _ => None) (fun _ => None) (fun _ => None)
    (fun _ => "00"%string) (fun _ => None).

(** An outside world in which the advisory service answers with the three
    expected lines. *)
Definition advised (reply : string) (number : string) (value : Q) : Env :=
  mkEnv (fun _ => None) (fun _ => None) (fun _ => Some reply)
    (fun _ => "00"%string)
    (fun s => if String.eqb s number then Some value else None).

(** An outside world whose node answers the gas price [wei], every other
    service being down. *)
Definition gas_at (wei : Z) : Env :=
  mkEnv (fun _ => Some wei) (fun _ => None) (fun _ => None)
    (fun _ => "00"%string) (fun _ => None).


(** A reply of the advisory service that recommends buying 5 ETH. *)
Definition buy_reply : string := "ACTION: BUY
AMOUNT: 5 ETH
REASON: dip".

(** A reply of the advisory service that recommends selling -5 ETH. *)
Definition negative_sell_reply : string := "ACTION: SELL
AMOUNT: -5 ETH
REASON: exit".

(** The bound on the minimum profitable amount without the rounding: the
    minimum is at least 50 and at least the transaction cost times the
    profit margin, for every price above 0. *)
Definition minimum_covers_margin_claim : Prop :=
  forall (env : Env) (p : Q) (w : World) (cost minimum : Q),
    0 < p ->
    snd (calculate_transaction_cost env p w) = Return cost ->
    snd (calculate_minimum_profitable_amount env p w) = Return minimum ->
    MINIMUM_PROFITABLE_USD <= minimum /\ cost * PROFIT_MARGIN <= minimum.

(** A card payment in USD. *)
Definition pay (amount_usd : Q) : TransactionRequest.t :=
  TransactionRequest.make amount_usd "USD" None.

(** ** Vocabulary of the further properties *)

(** The lines of a reply, as [get_ai_trading_suggestion] splits them
    (line 155). *)
Definition reply_lines (reply : string) : list string :=
  Str.split "010"%char (Str.strip reply).

(** The text that the parser hands to [float] for an [AMOUNT:] line
    (lines 166-168). *)
Definition amount_str_of (line : string) : string :=
  let amount_str := Str.lower (Str.strip (Str.remove line "AMOUNT:")) in
  if Str.contains "eth" amount_str
  then Str.strip (Str.remove amount_str "eth")
  else amount_str.

(** A reply without an [ACTION:] line. *)
Definition no_action_reply : string := "AMOUNT: 5 ETH
REASON: dip".

(** A reply whose amount is not a number. *)
Definition unreadable_amount_reply : string := "ACTION: SELL
AMOUNT: a lot
REASON: exit".

(** A reply that recommends selling 5 ETH. *)
Definition sell_reply : string := "ACTION: SELL
AMOUNT: 5 ETH
REASON: exit".

(** The content of a successful answer of [POST /use-card] reports the
    amount of the request as the handler read it, [float(request.amount)],
    and the state the request left (lines 277-286). *)
Definition reports_state (request : TransactionRequest.t) (w' : World)
    (r : CardResponse.t) : Prop :=
  CardResponse.status r = "Card Transaction Successful"%string /\
  CardResponse.amount r = Py.float (TransactionRequest.amount request) /\
  CardResponse.new_balance r = CURRENT_CARD_BALANCE w' /\
  CardResponse.new_eth_balance r = CURRENT_ETH_BALANCE w' /\
  CardResponse.new_metamask_balance_usd r = CURRENT_ETH_BALANCE w' * 2000.


(** The amount 49.9999999999999999999 USD: below 50, and nearer to the
    double 50 than to any other double. *)
Definition just_below_50 : Q := 499999999999999999999 # 10000000000000000000.

(** The no-break space U+00A0 in UTF-8. *)
Definition no_break_space : string := String "194"%char (String "160"%char "").

(** A reply that recommends buying 5 ETH, with a no-break space at the end
    of its first line. *)
Definition buy_reply_no_break_space : string :=
  ("ACTION: BUY" ++ no_break_space ++ "
AMOUNT: 5 ETH
REASON: dip")%string.

(** * Properties *)

(** ** Comparisons, [min], [max] and rounding *)

Lemma ltb_true_iff (x y : Q) : Py.ltb x y = true <-> x < y.
Proof.
  unfold Py.ltb. rewrite negb_true_iff. split; intro H.
  - apply Qnot_le_lt. intro L. apply Qle_bool_iff in L. congruence.
  - destruct (Qle_bool y x) eqn:E; trivial.
    apply Qle_bool_iff in E. exfalso. apply (Qlt_not_le _ _ H E).
Qed.

Lemma ltb_false_iff (x y : Q) : Py.ltb x y = false <-> y <= x.
Proof.
  unfold Py.ltb. rewrite negb_false_iff. apply Qle_bool_iff.
Qed.

Lemma max_ge_l (a b : Q) : a <= Py.max a b.
Proof.
  unfold Py.max. destruct (Py.ltb a b) eqn:E.
  - apply ltb_true_iff in E. apply Qlt_le_weak, E.
  - apply Qle_refl.
Qed.

Lemma max_ge_r (a b : Q) : b <= Py.max a b.
Proof.
  unfold Py.max. destruct (Py.ltb a b) eqn:E.
  - apply Qle_refl.
  - apply ltb_false_iff, E.
Qed.

Lemma round_half_even_ge_floor (q : Q) : (Qfloor q <= Py.round_half_even q)%Z.
Proof.
  unfold Py.round_half_even.
  destruct (Qcompare _ _); try destruct (Z.even _); lia.
Qed.

Lemma round_half_even_near (q : Q) :
  q - (1 # 2) <= inject_Z (Py.round_half_even q) <= q + (1 # 2).
Proof.
  unfold Py.round_half_even.
  pose proof (Qfloor_le q) as Hlo. pose proof (Qlt_floor q) as Hhi.
  rewrite inject_Z_plus in Hhi. change (inject_Z 1) with 1 in Hhi.
  destruct (Qcompare (q - inject_Z (Qfloor q)) (1 # 2)) eqn:E.
  - apply Qeq_alt in E.
    destruct (Z.even (Qfloor q)); rewrite ?inject_Z_plus;
      change (inject_Z 1) with 1; split; lra.
  - apply Qlt_alt in E. split; lra.
  - apply Qgt_alt in E. rewrite inject_Z_plus.
    change (inject_Z 1) with 1. split; lra.
Qed.

Lemma round_half_even_inject (q : Q) (z : Z) :
  q == inject_Z z -> Py.round_half_even q = z.
Proof.
  intro H. unfold Py.round_half_even.
  assert (F : Qfloor q = z) by (rewrite H; apply Qfloor_Z).
  rewrite F.
  assert (L : q - inject_Z z < 1 # 2) by lra.
  destruct (Qcompare (q - inject_Z z) (1 # 2)) eqn:E; trivial.
  - apply Qeq_alt in E. lra.
  - apply Qgt_alt in E. lra.
Qed.

Lemma scale_pos (n : nat) : 0 < inject_Z (10 ^ Z.of_nat n).
Proof.
  change 0 with (inject_Z 0). rewrite <- Zlt_Qlt.
  apply Z.pow_pos_nonneg; lia.
Qed.

Lemma round_near (x : Q) (n : nat) :
  let s := inject_Z (10 ^ Z.of_nat n) in
  (x - Py.round x n) * s <= 1 # 2 /\ (Py.round x n - x) * s <= 1 # 2.
Proof.
  intro s. unfold Py.round. fold s.
  pose proof (scale_pos n) as Hs. fold s in Hs.
  pose proof (round_half_even_near (x * s)) as [Hlo Hhi].
  assert (E : inject_Z (Py.round_half_even (x * s)) / s * s
              == inject_Z (Py.round_half_even (x * s))) by (field; lra).
  split; lra.
Qed.

Lemma round_ge_multiple (x : Q) (n : nat) (z : Z) :
  inject_Z z <= x * inject_Z (10 ^ Z.of_nat n) ->
  inject_Z z / inject_Z (10 ^ Z.of_nat n) <= Py.round x n.
Proof.
  intro H. unfold Py.round.
  pose proof (scale_pos n) as Hs.
  set (s := inject_Z (10 ^ Z.of_nat n)) in *.
  assert (Hz : (z <= Py.round_half_even (x * s))%Z).
  { apply Z.le_trans with (Qfloor (x * s)).
    - rewrite <- (Qfloor_Z z). apply Qfloor_resp_le, H.
    - apply round_half_even_ge_floor. }
  rewrite Zle_Qle in Hz.
  unfold Qdiv. apply Qmult_le_compat_r; trivial.
  apply Qlt_le_weak, Qinv_lt_0_compat, Hs.
Qed.

Lemma round_nonneg (x : Q) (n : nat) : 0 <= x -> 0 <= Py.round x n.
Proof.
  intro H. pose proof (scale_pos n) as Hs.
  assert (L : inject_Z 0 / inject_Z (10 ^ Z.of_nat n) <= Py.round x n).
  { apply round_ge_multiple. change (inject_Z 0) with 0.
    apply Qmult_le_0_compat; trivial. apply Qlt_le_weak, Hs. }
  assert (Z0 : inject_Z 0 / inject_Z (10 ^ Z.of_nat n) == 0) by (field; lra).
  lra.
Qed.

Lemma round_idempotent (x : Q) (n : nat) :
  Py.round (Py.round x n) n == Py.round x n.
Proof.
  pose proof (scale_pos n) as Hs.
  unfold Py.round at 1.
  set (s := inject_Z (10 ^ Z.of_nat n)) in *.
  assert (E : Py.round x n * s == inject_Z (Py.round_half_even (x * s))).
  { unfold Py.round. fold s. field. lra. }
  rewrite (round_half_even_inject _ _ E).
  unfold Py.round. fold s. reflexivity.
Qed.

(** ** Conversion to [float] *)

(** [float] on some decimals: doubles are left as they are; 0.1 and 70.7 go
    to the nearest double; 49.9999999999999999999 goes to 50; [10 ** 400]
    overflows to [inf]; [10 ** -400] underflows to 0 and [3 * 10 ** -324]
    to the smallest subnormal, [2 ** -1074]. *)
Lemma float_examples :
  Py.float 150 = 150 /\
  Py.float (1 # 2) = 1 # 2 /\
  Py.float (- (3 # 4)) = - (3 # 4) /\
  Py.float (1 # 10) = 3602879701896397 # 36028797018963968 /\
  Py.float (707 # 10) = 4975070213360845 # 70368744177664 /\
  Py.float just_below_50 = 50 /\
  Py.float (inject_Z (10 ^ 400)) = Py.pow2 1024 /\
  Py.float (1 # Z.to_pos (10 ^ 400)) = 0 /\
  Py.float (3 # Z.to_pos (10 ^ 324)) = Py.pow2 (-1074).
Proof. repeat split; vm_compute; reflexivity. Qed.

(** [2 ** e] is above 0. *)
Lemma pow2_pos (e : Z) : 0 < Py.pow2 e.
Proof.
  unfold Py.pow2. destruct (0 <=? e)%Z eqn:E.
  - apply Z.leb_le in E. change 0 with (inject_Z 0). rewrite <- Zlt_Qlt.
    apply Z.pow_pos_nonneg; lia.
  - reflexivity.
Qed.

(** [2 ** (e + 1)] is twice [2 ** e]. *)
Lemma pow2_succ (e : Z) : Py.pow2 (e + 1) == 2 * Py.pow2 e.
Proof.
  unfold Py.pow2.
  destruct (0 <=? e)%Z eqn:E; destruct (0 <=? e + 1)%Z eqn:E1;
    try apply Z.leb_le in E; try apply Z.leb_le in E1;
    try apply Z.leb_gt in E; try apply Z.leb_gt in E1; try lia.
  - rewrite Z.pow_add_r by lia. rewrite inject_Z_mult.
    change (inject_Z (2 ^ 1)) with 2. ring.
  - assert (e = -1)%Z by lia. subst e. reflexivity.
  - replace (- e)%Z with (- (e + 1) + 1)%Z by lia.
    assert (P : (0 < 2 ^ (- (e + 1)))%Z) by (apply Z.pow_pos_nonneg; lia).
    rewrite Z.pow_add_r by lia. change (2 ^ 1)%Z with 2%Z.
    unfold Qeq, Qmult. cbn [Qnum Qden].
    rewrite !Z2Pos.id by lia. lia.
Qed.

(** [2 ** (a - b)] as a quotient of powers with exponents of 0 or more. *)
Lemma pow2_sub (a b : Z) :
  (0 <= a)%Z -> (0 <= b)%Z ->
  Py.pow2 (a - b) * inject_Z (2 ^ b) == inject_Z (2 ^ a).
Proof.
  intros Ha Hb. unfold Py.pow2.
  destruct (0 <=? a - b)%Z eqn:E.
  - apply Z.leb_le in E. rewrite <- inject_Z_mult, <- Z.pow_add_r by lia.
    replace (a - b + b)%Z with a by lia. reflexivity.
  - apply Z.leb_gt in E.
    assert (P : (0 < 2 ^ (- (a - b)))%Z) by (apply Z.pow_pos_nonneg; lia).
    unfold Qeq, Qmult, inject_Z. cbn [Qnum Qden].
    rewrite Pos.mul_1_r, Z2Pos.id by lia.
    replace b with (a + - (a - b))%Z at 1 by lia.
    rewrite Z.pow_add_r by lia. lia.
Qed.

(** The binary exponent of a positive number. *)
Lemma binade_spec (x : Q) :
  0 < x -> Py.pow2 (Py.binade x) <= x < Py.pow2 (Py.binade x + 1).
Proof.
  intro Hx. destruct x as [n d].
  assert (Hn : (0 < n)%Z).
  { unfold Qlt in Hx. cbn in Hx. lia. }
  unfold Py.binade. cbn [Qnum Qden].
  set (a := Z.log2 n). set (b := Z.log2 (Zpos d)).
  destruct (Z.log2_spec n Hn) as [La Ua]. fold a in La, Ua.
  destruct (Z.log2_spec (Zpos d) (Pos2Z.is_pos d)) as [Lb Ub]. fold b in Lb, Ub.
  assert (Ha : (0 <= a)%Z) by apply Z.log2_nonneg.
  assert (Hb : (0 <= b)%Z) by apply Z.log2_nonneg.
  assert (Pb : 0 < inject_Z (2 ^ b)).
  { change 0 with (inject_Z 0). rewrite <- Zlt_Qlt. apply Z.pow_pos_nonneg; lia. }
  assert (Pd : 0 < inject_Z (Zpos d)) by reflexivity.
  assert (X : n # d == inject_Z n / inject_Z (Zpos d)) by apply Qmake_Qdiv.
  assert (Xd : (n # d) * inject_Z (Zpos d) == inject_Z n).
  { rewrite X. field. discriminate. }
  pose proof (pow2_sub a b Ha Hb) as S0.
  pose proof (pow2_succ (a - b)) as S1.
  pose proof (pow2_succ (a - b - 1)) as S2'.
  assert (S2 : Py.pow2 (a - b) == 2 * Py.pow2 (a - b - 1)).
  { rewrite <- S2'. replace (a - b - 1 + 1)%Z with (a - b)%Z by lia. reflexivity. }
  pose proof (pow2_pos (a - b)) as P0.
  pose proof (pow2_pos (a - b - 1)) as P1.
  rewrite Zle_Qle in La, Lb. rewrite Zlt_Qlt in Ua, Ub.
  rewrite Z.pow_succ_r in Ua, Ub by lia.
  rewrite inject_Z_mult in Ua, Ub. change (inject_Z 2) with 2 in Ua, Ub.
  set (p := Py.pow2 (a - b)) in *. set (q := Py.pow2 (a - b - 1)) in *.
  set (A := inject_Z (2 ^ a)) in *. set (B := inject_Z (2 ^ b)) in *.
  set (N := inject_Z n) in *. set (D := inject_Z (Zpos d)) in *.
  set (x := n # d) in *.
  assert (F1 : p <= x -> x < 2 * p).
  { clear X. clearbody x p q A B N D. intro E.
    apply Qnot_le_lt. intro C.
    assert (2 * p * D <= x * D) by (apply Qmult_le_compat_r; lra).
    assert (2 * p * B <= 2 * p * D) by (apply Qmult_le_l; lra).
    lra. }
  assert (F2 : x < p -> q <= x).
  { clear X F1. clearbody x p q A B N D. intro E.
    apply Qnot_lt_le. intro C.
    assert (x * D < q * D) by (apply Qmult_lt_compat_r; lra).
    assert (q * D <= q * (2 * B)) by (apply Qmult_le_l; lra).
    assert (p * B == 2 * q * B) by (rewrite S2; ring).
    lra. }
  destruct (Qle_bool p x) eqn:E; cbn [negb].
  - apply Qle_bool_iff in E. split; [exact E |].
    rewrite S1. apply F1, E.
  - assert (E' : x < p).
    { apply Qnot_le_lt. intro C. apply Qle_bool_iff in C. congruence. }
    split; [apply F2, E' | rewrite S2'; lra].
Qed.

(** [2 ** (e + k)] for [k] of 0 or more. *)
Lemma pow2_add (e k : Z) :
  (0 <= k)%Z -> Py.pow2 (e + k) == Py.pow2 e * inject_Z (2 ^ k).
Proof.
  intro Hk. revert k Hk. apply natlike_ind.
  - rewrite Z.add_0_r. change (inject_Z (2 ^ 0)) with 1. ring.
  - intros k Hk IH. replace (e + Z.succ k)%Z with (e + k + 1)%Z by lia.
    rewrite pow2_succ, IH, Z.pow_succ_r by lia.
    rewrite inject_Z_mult. change (inject_Z 2) with 2. ring.
Qed.

Lemma pow2_le (a b : Z) : (a <= b)%Z -> Py.pow2 a <= Py.pow2 b.
Proof.
  intro H. replace b with (a + (b - a))%Z by lia.
  rewrite pow2_add by lia.
  pose proof (pow2_pos a) as P.
  assert (L : 1 <= inject_Z (2 ^ (b - a))).
  { change 1 with (inject_Z 1). rewrite <- Zle_Qle.
    assert (0 < 2 ^ (b - a))%Z by (apply Z.pow_pos_nonneg; lia). lia. }
  rewrite <- (Qmult_1_r (Py.pow2 a)) at 1.
  apply Qmult_le_l; trivial.
Qed.

(** [float] rounds correctly.  For a number above 0 with the binary
    exponent [e] (at least -1022, the exponent of the subnormal doubles),
    the doubles around it are the multiples of [ulp = 2 ** (e - 52)];
    [float] returns the multiple [m * ulp] nearest to it, the even [m] on a
    tie, with a significand [m] of at most 53 bits, or [inf] when that
    multiple is [2 ** 1024] or more. *)
Theorem float_rounds_to_nearest (x : Q) :
  0 < x ->
  let e := Z.max (Py.binade x) (-1022) in
  let ulp := Py.pow2 (e - 52) in
  let m := Py.round_half_even (x / ulp) in
  Py.pow2 (Py.binade x) <= x < Py.pow2 (Py.binade x + 1) /\
  (0 <= m <= 2 ^ 53)%Z /\
  x - ulp / 2 <= inject_Z m * ulp <= x + ulp / 2 /\
  (inject_Z m * ulp < Py.pow2 1024 -> Py.float x == inject_Z m * ulp) /\
  (Py.pow2 1024 <= inject_Z m * ulp -> Py.float x = Py.pow2 1024).
Proof.
  intros Hx e ulp m.
  pose proof (binade_spec x Hx) as [Blo Bhi].
  pose proof (pow2_pos (e - 52)) as Pu. fold ulp in Pu.
  pose proof (round_half_even_near (x / ulp)) as [Nlo Nhi]. fold m in Nlo, Nhi.
  assert (Xu : x / ulp * ulp == x) by (field; lra).
  assert (Top : x < ulp * inject_Z (2 ^ 53)).
  { unfold ulp. rewrite <- pow2_add by lia.
    eapply Qlt_le_trans; [exact Bhi |]. apply pow2_le. unfold e. lia. }
  split; [split; assumption |]. split; [| split; [| split]].
  - split.
    + apply Z.le_trans with (Qfloor (x / ulp)); [| apply round_half_even_ge_floor].
      rewrite <- (Qfloor_Z 0). apply Qfloor_resp_le.
      apply Qle_shift_div_l; [exact Pu |].
      rewrite Qmult_0_l. apply Qlt_le_weak, Hx.
    + assert (L : x / ulp < inject_Z (2 ^ 53)).
      { apply Qlt_shift_div_r; lra. }
      assert (M : inject_Z m < inject_Z (2 ^ 53 + 1)).
      { rewrite inject_Z_plus. change (inject_Z 1) with 1. lra. }
      rewrite <- Zlt_Qlt in M. lia.
  - assert (A : (x / ulp - (1 # 2)) * ulp <= inject_Z m * ulp)
      by (apply Qmult_le_compat_r; lra).
    assert (B : inject_Z m * ulp <= (x / ulp + (1 # 2)) * ulp)
      by (apply Qmult_le_compat_r; lra).
    assert (A' : (x / ulp - (1 # 2)) * ulp == x - ulp / 2) by (field; lra).
    assert (B' : (x / ulp + (1 # 2)) * ulp == x + ulp / 2) by (field; lra).
    split; lra.
  - intro Hfin. unfold Py.float.
    assert (G : Qcompare x 0 = Gt) by (apply -> Qgt_alt; exact Hx).
    rewrite G. unfold Py.nearest_double. fold e. fold ulp. fold m. cbv zeta.
    destruct (Qle_bool _ _) eqn:O.
    + apply Qle_bool_iff in O. rewrite Qred_correct in O. lra.
    + apply Qred_correct.
  - intro Hinf. unfold Py.float.
    assert (G : Qcompare x 0 = Gt) by (apply -> Qgt_alt; exact Hx).
    rewrite G. unfold Py.nearest_double. fold e. fold ulp. fold m. cbv zeta.
    destruct (Qle_bool _ _) eqn:O; trivial.
    assert (O' : Qle_bool (Py.pow2 1024) (Qred (inject_Z m * ulp)) = true).
    { apply Qle_bool_iff. rewrite Qred_correct. exact Hinf. }
    congruence.
Qed.

Lemma float_rounds_to_nearest_witness :
  let x := just_below_50 in
  let e := Z.max (Py.binade x) (-1022) in
  let ulp := Py.pow2 (e - 52) in
  let m := Py.round_half_even (x / ulp) in
  Py.pow2 (Py.binade x) <= x < Py.pow2 (Py.binade x + 1) /\
  (0 <= m <= 2 ^ 53)%Z /\
  x - ulp / 2 <= inject_Z m * ulp <= x + ulp / 2 /\
  (inject_Z m * ulp < Py.pow2 1024 -> Py.float x == inject_Z m * ulp) /\
  (Py.pow2 1024 <= inject_Z m * ulp -> Py.float x = Py.pow2 1024).
Proof.
  apply (float_rounds_to_nearest just_below_50). reflexivity.
Defined.

(** [float] of 0 is 0, and [float] of a number below 0 is the opposite of
    [float] of its opposite. *)
Lemma float_sign (x : Q) :
  (x == 0 -> Py.float x = 0) /\
  (x < 0 -> Py.float x = - Py.float (- x)).
Proof.
  unfold Py.float. split; intro H.
  - apply Qeq_alt in H. now rewrite H.
  - assert (L : Qcompare x 0 = Lt) by (apply -> Qlt_alt; exact H).
    assert (G : Qcompare (- x) 0 = Gt) by (apply -> Qgt_alt; lra).
    now rewrite L, G.
Qed.

(** ** The monad *)

Lemma bind_return {A B} (m : M A) (k : A -> M B) w w' a :
  m w = (w', Return a) -> bind m k w = k a w'.
Proof. intro H. unfold bind. now rewrite H. Qed.

Lemma bind_raise {A B} (m : M A) (k : A -> M B) w w' e :
  m w = (w', Raise e) -> bind m k w = (w', Raise e).
Proof. intro H. unfold bind. now rewrite H. Qed.

Lemma try_return {A} (m : M A) (h : exn -> M A) w w' a :
  m w = (w', Return a) -> try_except m h w = (w', Return a).
Proof. intro H. unfold try_except. now rewrite H. Qed.

Lemma try_raise {A} (m : M A) (h : exn -> M A) w w' e :
  m w = (w', Raise e) -> try_except m h w = h e w'.
Proof. intro H. unfold try_except. now rewrite H. Qed.

(** ** Frame: computations that leave the two balances alone *)

Lemma same_balances_refl w : same_balances w w.
Proof. now split. Qed.

Lemma same_balances_trans w1 w2 w3 :
  same_balances w1 w2 -> same_balances w2 w3 -> same_balances w1 w3.
Proof. intros [A B] [C D]. split; congruence. Qed.

Lemma preserves_ret {A} (a : A) : preserves (ret a).
Proof. intro w. apply same_balances_refl. Qed.

Lemma preserves_raise {A} (e : exn) : preserves (@raise A e).
Proof. intro w. apply same_balances_refl. Qed.

Lemma preserves_bind {A B} (m : M A) (k : A -> M B) :
  preserves m -> (forall a, preserves (k a)) -> preserves (bind m k).
Proof.
  intros Hm Hk w. unfold bind. specialize (Hm w).
  destruct (m w) as [w' [a | e]]; simpl in *; trivial.
  eapply same_balances_trans; [exact Hm | apply Hk].
Qed.

Lemma preserves_try {A} (m : M A) (h : exn -> M A) :
  preserves m -> (forall e, preserves (h e)) -> preserves (try_except m h).
Proof.
  intros Hm Hh w. unfold try_except. specialize (Hm w).
  destruct (m w) as [w' [a | e]]; simpl in *; trivial.
  eapply same_balances_trans; [exact Hm | apply Hh].
Qed.

Lemma preserves_external {A} what (answer : nat -> option A) :
  preserves (external what answer).
Proof.
  intro w. unfold external. destruct (answer (clock w)); now split.
Qed.

Lemma preserves_get_card : preserves get_card.
Proof. intro w. apply same_balances_refl. Qed.

Lemma preserves_get_eth : preserves get_eth.
Proof. intro w. apply same_balances_refl. Qed.

Lemma preserves_load_global name : preserves (load_global name).
Proof.
  unfold load_global. destruct (existsb _ _);
    [apply preserves_ret | apply preserves_raise].
Qed.

Lemma preserves_py_div a b : preserves (py_div a b).
Proof.
  unfold py_div. destruct (Qeq_bool b 0);
    [apply preserves_raise | apply preserves_ret].
Qed.

Lemma preserves_from_wei n u : preserves (from_wei n u).
Proof.
  unfold from_wei. destruct (n =? 0)%Z; [apply preserves_ret |].
  destruct (_ || _); [apply preserves_raise | apply preserves_ret].
Qed.

Lemma preserves_to_wei x u : preserves (to_wei x u).
Proof.
  unfold to_wei. destruct (Qeq_bool x 0); [apply preserves_ret |].
  cbv zeta. destruct (_ || _); [apply preserves_raise | apply preserves_ret].
Qed.

Create HintDb frame.
#[export] Hint Resolve preserves_ret preserves_raise preserves_external
  preserves_get_card preserves_get_eth preserves_load_global preserves_py_div
  preserves_from_wei preserves_to_wei : frame.

(** Walks down a computation built from [bind], [try_except] and case
    distinctions, leaving the calls to other functions to the hints. *)
Ltac frame :=
  repeat first
    [ apply preserves_bind; [| intro]
    | apply preserves_try; [| intro]
    | match goal with
      | |- preserves (if ?b then _ else _) => destruct b
      | |- preserves (match ?x with _ => _ end) => destruct x
      | |- preserves (let '(_, _) := ?x in _) => destruct x
      end
    | progress cbv zeta
    | solve [auto with frame] ].

Section ServiceFrame.

Variable env : Env.

Lemma preserves_get_eth_price : preserves (get_eth_price env).
Proof. unfold get_eth_price. frame. Qed.

Lemma preserves_get_gas_price : preserves (get_gas_price env).
Proof. unfold get_gas_price. frame. Qed.

#[local] Hint Resolve preserves_get_eth_price preserves_get_gas_price : frame.

Lemma preserves_calculate_transaction_cost p :
  preserves (calculate_transaction_cost env p).
Proof. unfold calculate_transaction_cost. frame. Qed.

#[local] Hint Resolve preserves_calculate_transaction_cost : frame.

Lemma preserves_calculate_minimum_profitable_amount p :
  preserves (calculate_minimum_profitable_amount env p).
Proof. unfold calculate_minimum_profitable_amount. frame. Qed.

Lemma preserves_get_ai_trading_suggestion b p :
  preserves (get_ai_trading_suggestion env b p).
Proof. unfold get_ai_trading_suggestion. frame. Qed.

#[local] Hint Resolve preserves_calculate_minimum_profitable_amount
  preserves_get_ai_trading_suggestion : frame.

Lemma preserves_simulate_card_transaction a :
  preserves (simulate_card_transaction env a).
Proof. unfold simulate_card_transaction. frame. Qed.

Lemma preserves_status : preserves (status env).
Proof. unfold status, get_card_balance. frame. Qed.

End ServiceFrame.

(** ** What each function of the service returns *)

Section Runs.

Variable env : Env.

Lemma price_feed_address_unbound :
  existsb (String.eqb "price_feed_address") module_globals = false.
Proof. reflexivity. Qed.

Lemma PRICE_FEED_ADDRESS_bound :
  existsb (String.eqb "PRICE_FEED_ADDRESS") module_globals = true.
Proof. reflexivity. Qed.

Lemma get_eth_price_run w : get_eth_price env w = (w, Return 2000).
Proof.
  unfold get_eth_price.
  rewrite (try_raise _ _ w w (NameError "price_feed_address"));
    [reflexivity |].
  apply bind_raise. unfold load_global.
  now rewrite price_feed_address_unbound.
Qed.

Lemma get_gas_price_run w :
  exists g, get_gas_price env w = (tick w, Return g).
Proof.
  unfold get_gas_price, try_except, bind, external, from_wei, ret, raise, tick.
  destruct (eth_gas_price env (clock w)) as [n |]; [| now eexists].
  destruct (n =? 0)%Z; [now eexists |].
  destruct (_ || _); now eexists.
Qed.

Lemma calculate_transaction_cost_run p w :
  exists cost, calculate_transaction_cost env p w = (tick w, Return cost).
Proof.
  unfold calculate_transaction_cost.
  destruct (get_gas_price_run w) as [g Hg].
  unfold try_except, bind. rewrite Hg.
  unfold to_wei, from_wei, ret, raise.
  destruct (Qeq_bool g 0); cbv zeta.
  - now eexists.
  - destruct (_ || _); [now eexists |].
    destruct (_ =? 0)%Z; [now eexists |].
    destruct (_ || _); now eexists.
Qed.

Lemma calculate_minimum_profitable_amount_run p w :
  exists cost,
    calculate_transaction_cost env p w = (tick w, Return cost) /\
    calculate_minimum_profitable_amount env p w =
      (tick w, Return (Py.round (Py.max MINIMUM_PROFITABLE_USD (cost * PROFIT_MARGIN)) 2)).
Proof.
  destruct (calculate_transaction_cost_run p w) as [cost Hc].
  exists cost. split; trivial.
  unfold calculate_minimum_profitable_amount, try_except, bind.
  now rewrite Hc.
Qed.

Lemma simulate_card_transaction_run a w :
  simulate_card_transaction env a w =
    (tick w, Return (Some ("0x" ++ urandom_hex env (clock w))%string)).
Proof. reflexivity. Qed.

Lemma simulate_eth_sale_run x w :
  simulate_eth_sale env x w =
    (mkWorld (CURRENT_CARD_BALANCE w) (CURRENT_ETH_BALANCE w - x) (S (clock w)),
     Return ("0x" ++ urandom_hex env (clock w))%string).
Proof. reflexivity. Qed.

End Runs.

(** ** Market data *)

(** C10.  Whatever the price oracle would answer, [get_eth_price] returns the
    fallback 2000 and leaves the state as it is: the name
    [price_feed_address] is not bound (the constant is
    [PRICE_FEED_ADDRESS]), so the body raises before the contract is
    called. *)
Theorem get_eth_price_is_fallback (env : Env) (w : World) :
  get_eth_price env w = (w, Return 2000).
Proof. apply get_eth_price_run. Qed.

(** ** [GET /status] *)

(** C9.  [GET /status] leaves the card balance and the wallet balance as
    they were, from every state and whatever the external services answer. *)
Theorem status_is_read_only (env : Env) (w : World) :
  CURRENT_CARD_BALANCE (fst (status env w)) = CURRENT_CARD_BALANCE w /\
  CURRENT_ETH_BALANCE (fst (status env w)) = CURRENT_ETH_BALANCE w.
Proof. apply (preserves_status env w). Qed.

(** ** Stepping through a computation *)

Ltac run :=
  repeat first
    [ rewrite (bind_return _ _ _ _ _ (get_eth_price_run _ _))
    | erewrite bind_return by (eassumption || reflexivity)
    | erewrite bind_raise by (eassumption || reflexivity)
    | progress cbn [CURRENT_CARD_BALANCE CURRENT_ETH_BALANCE clock tick] ].

Ltac run_in H :=
  repeat first
    [ rewrite (bind_return _ _ _ _ _ (get_eth_price_run _ _)) in H
    | erewrite bind_return in H by (eassumption || reflexivity)
    | erewrite bind_raise in H by (eassumption || reflexivity)
    | progress cbn [CURRENT_CARD_BALANCE CURRENT_ETH_BALANCE clock tick] in H ].

Section UseCard.
Variable env : Env.
Variable advise : Q -> Q -> M TradingSuggestion.


(** What a successful run of [until_advice] went through. *)
Lemma until_advice_some request w w_q topup eth_amount :
  until_advice env request w = (w_q, Return (Some (topup, eth_amount))) ->
  let amount_usd := Py.float (TransactionRequest.amount request) in
  let withdrawn :=
    mkWorld (CURRENT_CARD_BALANCE w - amount_usd) (CURRENT_ETH_BALANCE w)
      (S (S (clock w))) in
  exists minimum minimum2 gas_cost,
    calculate_minimum_profitable_amount env 2000 w = (tick w, Return minimum) /\
    Py.ltb amount_usd minimum = false /\
    Py.ltb (CURRENT_CARD_BALANCE w) amount_usd = false /\
    Py.ltb (CURRENT_CARD_BALANCE w - amount_usd) CARD_MIN_THRESHOLD = true /\
    calculate_minimum_profitable_amount env 2000 withdrawn =
      (tick withdrawn, Return minimum2) /\
    topup = Py.max (CARD_TARGET_BALANCE - (CURRENT_CARD_BALANCE w - amount_usd))
              (minimum2 * 2) /\
    calculate_transaction_cost env 2000 (tick withdrawn) =
      (tick (tick withdrawn), Return gas_cost) /\
    eth_amount = (topup * PROFIT_MARGIN + gas_cost) / 2000 /\
    Py.ltb (CURRENT_ETH_BALANCE w) eth_amount = false /\
    w_q = tick (tick withdrawn).
Proof.
  intros H amount_usd withdrawn.
  unfold until_advice in H. cbv zeta in H. fold amount_usd in H.
  destruct (calculate_minimum_profitable_amount_run env 2000 w) as (c1 & _ & E1).
  run_in H.
  destruct (Py.ltb amount_usd _) eqn:Elow; run_in H; [discriminate |].
  destruct (Py.ltb (CURRENT_CARD_BALANCE w) _) eqn:Ecard;
    run_in H; [discriminate |].
  destruct (Py.ltb _ CARD_MIN_THRESHOLD) eqn:Ethr; [| discriminate].
  fold withdrawn in H.
  destruct (calculate_minimum_profitable_amount_run env 2000 withdrawn)
    as (c2 & _ & E2).
  destruct (calculate_transaction_cost_run env 2000 (tick withdrawn))
    as (gas_cost & Eg).
  run_in H.
  change (CURRENT_ETH_BALANCE withdrawn) with (CURRENT_ETH_BALANCE w) in H.
  destruct (Py.ltb (CURRENT_ETH_BALANCE w) _) eqn:Eeth;
    run_in H; [discriminate |].
  injection H as Hw Ht He. subst w_q topup eth_amount.
  exists (Py.round (Py.max MINIMUM_PROFITABLE_USD (c1 * PROFIT_MARGIN)) 2),
    (Py.round (Py.max MINIMUM_PROFITABLE_USD (c2 * PROFIT_MARGIN)) 2),
    gas_cost.
  repeat split; assumption || reflexivity.
Qed.


(** The sale sub-sequence when it goes through: the wallet is debited by
    the crypto amount of the sale and the card credited by the target. *)
Lemma auto_topup_with_done target w gas_cost w_a s :
  calculate_transaction_cost env 2000 w = (tick w, Return gas_cost) ->
  let eth_amount := (target * PROFIT_MARGIN + gas_cost) / 2000 in
  Py.ltb (CURRENT_ETH_BALANCE w) eth_amount = false ->
  advise (CURRENT_ETH_BALANCE w) 2000 (tick w) = (w_a, Return s) ->
  String.eqb (action s) "hold" && Py.ltb eth_amount (amount s) = false ->
  exists r,
    auto_topup_with env advise target w =
      (mkWorld (CURRENT_CARD_BALANCE w_a + target)
         (CURRENT_ETH_BALANCE w_a - eth_amount) (S (clock w_a)),
       Return r).
Proof.
  intros Hg eth_amount Heth Hadv Hno.
  assert (Hsale :
    exists r, auto_sell_eth_for_card_with env advise target w =
      (mkWorld (CURRENT_CARD_BALANCE w_a)
         (CURRENT_ETH_BALANCE w_a - eth_amount) (S (clock w_a)),
       Return r) /\ SaleResult.status r = "success"%string).
  { unfold auto_sell_eth_for_card_with. cbv zeta.
    eexists. split.
    - erewrite try_return; [reflexivity |].
      run. fold eth_amount. rewrite Heth. run. rewrite Hno. run.
      reflexivity.
    - reflexivity. }
  destruct Hsale as (r & Hr & Hs).
  unfold auto_topup_with. eexists.
  erewrite try_return; [reflexivity |].
  run. rewrite Hs. run. reflexivity.
Qed.


(** After a run of [use_card] that reaches the advisory engine and is not
    vetoed, the request succeeds, the card has been credited twice by the
    top-up amount and the wallet debited by the crypto amount of the sale
    and by the top-up amount at the price. *)
Lemma use_card_with_completed request w w_q topup eth_amount w_a s :
  until_advice env request w = (w_q, Return (Some (topup, eth_amount))) ->
  advise (CURRENT_ETH_BALANCE w_q) 2000 w_q = (w_a, Return s) ->
  String.eqb (action s) "hold" && Py.ltb eth_amount (amount s) = false ->
  exists r,
    use_card_with env advise request w =
      (mkWorld (CURRENT_CARD_BALANCE w_a + topup + topup)
         (CURRENT_ETH_BALANCE w_a - eth_amount - topup / 2000)
         (S (clock w_a)),
       Return r).
Proof.
  intros H Hadv Hno.
  destruct (until_advice_some _ _ _ _ _ H)
    as (minimum & minimum2 & gas_cost & E1 & Elow & Ecard & Ethr & E2 & Ht & Eg
        & He & Eeth & Hw).
  subst w_q eth_amount. cbn [CURRENT_CARD_BALANCE CURRENT_ETH_BALANCE tick] in *.
  destruct (auto_topup_with_done topup _ gas_cost w_a s Eg) as (r & Hr);
    cbn [CURRENT_ETH_BALANCE tick]; trivial.
  unfold use_card_with. cbv zeta.
  eexists. erewrite try_return; [reflexivity |].
  run. rewrite Elow. run. rewrite Ecard. run. rewrite Ethr. run.
  erewrite bind_return; cycle 1.
  { run. rewrite <- Ht. run. reflexivity. }
  run. reflexivity.
Qed.

End UseCard.

(** ** Profitability *)

(** C6, amended.  For every price above 0 (and whatever the gas oracle
    answers) the minimum profitable amount is at least the fixed minimum of
    50 USD, and at least the transaction cost times the profit margin less
    half a cent: the amount is rounded to cents, which can round down. *)
Theorem minimum_profitable_amount_bounds (env : Env) (p : Q) (w : World) :
  0 < p ->
  exists cost minimum,
    snd (calculate_transaction_cost env p w) = Return cost /\
    snd (calculate_minimum_profitable_amount env p w) = Return minimum /\
    MINIMUM_PROFITABLE_USD <= minimum /\
    cost * PROFIT_MARGIN - (1 # 200) <= minimum.
Proof.
  intros _.
  destruct (calculate_minimum_profitable_amount_run env p w) as (cost & Hc & Hm).
  exists cost, (Py.round (Py.max MINIMUM_PROFITABLE_USD (cost * PROFIT_MARGIN)) 2).
  rewrite Hc, Hm. repeat split.
  - assert (L : inject_Z 5000 / inject_Z (10 ^ Z.of_nat 2)
                <= Py.round (Py.max MINIMUM_PROFITABLE_USD (cost * PROFIT_MARGIN)) 2).
    { apply round_ge_multiple.
      pose proof (max_ge_l MINIMUM_PROFITABLE_USD (cost * PROFIT_MARGIN)) as G.
      unfold MINIMUM_PROFITABLE_USD in *.
      change (inject_Z (10 ^ Z.of_nat 2)) with 100.
      change (inject_Z 5000) with 5000. lra. }
    change (inject_Z 5000 / inject_Z (10 ^ Z.of_nat 2)) with (5000 / 100) in L.
    change MINIMUM_PROFITABLE_USD with 50 at 1.
    assert (E : 5000 / 100 == 50) by reflexivity.
    rewrite E in L. exact L.
  - pose proof (max_ge_r MINIMUM_PROFITABLE_USD (cost * PROFIT_MARGIN)) as G.
    pose proof (round_near (Py.max MINIMUM_PROFITABLE_USD (cost * PROFIT_MARGIN)) 2)
      as [N _].
    change (inject_Z (10 ^ Z.of_nat 2)) with 100 in N.
    lra.
Qed.

Lemma minimum_profitable_amount_bounds_witness :
  exists cost minimum,
    snd (calculate_transaction_cost offline 2000 seed) = Return cost /\
    snd (calculate_minimum_profitable_amount offline 2000 seed) = Return minimum /\
    MINIMUM_PROFITABLE_USD <= minimum /\
    cost * PROFIT_MARGIN - (1 # 200) <= minimum.
Proof.
  apply (minimum_profitable_amount_bounds offline 2000 seed). reflexivity.
Defined.

(** C6 as stated fails: at the price 49999 with the fallback gas price of
    50 gwei the cost is 52.49895, the cost with margin 55.1238975 and the
    minimum is 55.12. *)
Lemma minimum_covers_margin_claim_fails : ~ minimum_covers_margin_claim.
Proof.
  intro H.
  destruct (H offline 49999 seed _ _ eq_refl eq_refl eq_refl) as [_ Hc].
  vm_compute in Hc. apply Hc. reflexivity.
Qed.

(** ** Advisory engine *)

Lemma round_wd (x y : Q) (n : nat) : x == y -> Py.round x n == Py.round y n.
Proof.
  intro H. unfold Py.round, Py.round_half_even.
  set (s := inject_Z (10 ^ Z.of_nat n)).
  assert (F : Qfloor (x * s) = Qfloor (y * s))
    by (apply Qfloor_comp; rewrite H; reflexivity).
  assert (C : Qcompare (x * s - inject_Z (Qfloor (x * s))) (1 # 2)
              = Qcompare (y * s - inject_Z (Qfloor (y * s))) (1 # 2))
    by (apply Qcompare_comp; [rewrite F, H |]; reflexivity).
  rewrite C, F. reflexivity.
Qed.

Lemma min_nonneg (a b : Q) : 0 <= a -> 0 <= b -> 0 <= Py.min a b.
Proof. intros. unfold Py.min. now destruct (Py.ltb b a). Qed.

Lemma adjusted_amount_rounded (x : Q) :
  0 <= Py.round (Py.abs x) 4 /\
  Py.round (Py.round (Py.abs x) 4) 4 == Py.round (Py.abs x) 4.
Proof.
  split.
  - apply round_nonneg, Qabs_nonneg.
  - apply round_idempotent.
Qed.

Lemma validate_and_adjust_cases (balance_eth : Q) (act : string) (parsed : Q) :
  let s := validate_and_adjust balance_eth act parsed in
  (act = "buy"%string ->
     fst s = "buy"%string /\
     (0 <= balance_eth ->
      snd s == Py.round (Py.min (1 # 2) (balance_eth * (1 # 2))) 4)) /\
  (act = "sell"%string ->
     fst s = "sell"%string /\
     (0 <= balance_eth -> 0 <= parsed ->
      snd s == Py.round (Py.min parsed (balance_eth * (1 # 2))) 4)) /\
  (act <> "buy"%string -> act <> "sell"%string ->
     fst s = "hold"%string /\ snd s == 0) /\
  0 <= snd s /\
  Py.round (snd s) 4 == snd s.
Proof.
  unfold validate_and_adjust.
  destruct (String.eqb_spec act "buy") as [Eb | Nb];
    [| destruct (String.eqb_spec act "sell") as [Es | Ns]];
    cbn [fst snd]; (split; [| split; [| split; [| apply adjusted_amount_rounded]]]).
  - intros _. split; trivial. intro Hb.
    apply round_wd, Qabs_pos, min_nonneg; lra.
  - subst act. discriminate.
  - intros Nb _. contradiction.
  - intro Eb. contradiction.
  - intros _. split; trivial. intros Hb Hp.
    apply round_wd, Qabs_pos, min_nonneg; lra.
  - intros _ Ns. contradiction.
  - intro Eb. contradiction.
  - intro Es. contradiction.
  - intros _ _. split; reflexivity.
Qed.



(** The examples of the specification: with a balance of 0.2, [buy] with a
    parsed amount of 5 gives 0.1 and [sell] with a parsed amount of 0.05
    gives 0.05; with a balance of 0.33333, [buy] gives 0.1667, the forced
    amount 0.166665 rounded to 4 decimals. *)
Lemma clamping_examples :
  validate_and_adjust (2 # 10) "buy" 5 = ("buy"%string, 1000 # 10000) /\
  validate_and_adjust (2 # 10) "sell" (5 # 100) = ("sell"%string, 500 # 10000) /\
  validate_and_adjust (2 # 10) "garbage" 7 = ("hold"%string, 0 # 10000) /\
  validate_and_adjust (33333 # 100000) "buy" 5 = ("buy"%string, 1667 # 10000).
Proof. repeat split. Qed.

(** A negative parsed amount passes the [sell] clamp unchanged and is then
    made positive: with a balance of 0.2 the suggestion is to sell 5 ETH,
    above half the balance. *)
Lemma negative_sell_exceeds_half_balance :
  exists s,
    snd (get_ai_trading_suggestion (advised negative_sell_reply "-5" (-5)) (2 # 10) 2000 seed)
      = Return s /\
    action s = "sell"%string /\
    amount s == 5 /\
    (2 # 10) * (1 # 2) < amount s.
Proof. eexists. repeat split. Qed.

(** With the service's own engine a [hold] always comes with the amount 0. *)
Lemma own_advice_holds_zero (env : Env) (balance_eth eth_price : Q) (w : World) :
  exists s,
    get_ai_trading_suggestion env balance_eth eth_price w = (tick w, Return s) /\
    (action s = "hold"%string -> amount s == 0).
Proof.
  unfold get_ai_trading_suggestion, try_except, bind, external.
  destruct (chat_complete env (clock w)) as [reply |];
    [| eexists; split; [reflexivity | reflexivity]].
  destruct (parse_lines _ _ _) as [[[act parsed] why] | e];
    [| eexists; split; [reflexivity | reflexivity]].
  pose proof (validate_and_adjust_cases balance_eth act parsed) as Hcases.
  destruct (validate_and_adjust balance_eth act parsed) as [act' final].
  cbn [fst snd] in Hcases. destruct Hcases as (Hb & Hs & Hh & _).
  eexists. split; [reflexivity |]. cbn [action amount]. intro Hhold.
  destruct (String.eqb_spec act "buy") as [Eb | Nb].
  - destruct (Hb Eb) as [A _]. congruence.
  - destruct (String.eqb_spec act "sell") as [Es | Ns].
    + destruct (Hs Es) as [A _]. congruence.
    + apply (Hh Nb Ns).
Qed.

(** ** [POST /use-card] *)




(** No answer of [POST /use-card] has the status 400: every exception
    raised in the handler, the two [HTTPException(400)] included, is caught
    by its [except Exception] and raised again as a 500. *)
Lemma use_card_never_answers_400 (env : Env) (body : TransactionRequest.t)
    (w : World) :
  snd (serve env (POST_use_card body) w) <> 400%Z.
Proof.
  unfold serve, post_use_card.
  destruct (TransactionRequest.validate body) as [req | e]; [| discriminate].
  unfold use_card, use_card_with, try_except.
  match goal with |- context [match ?m w with _ => _ end] => destruct (m w) as [w' [r | e]] end;
    discriminate.
Qed.

(** C4, on the code.  From the seed state a payment of 10 USD (below the
    minimum of 50) and a payment of 250 USD (above the card balance of 200)
    are both answered with the status 500; the 400 error with its reason is
    only the text of the 500's detail. *)
Theorem rejected_payments_answer_500 :
  serve offline (POST_use_card (pay 10)) seed = (tick seed, 500%Z) /\
  serve offline (POST_use_card (pay 250)) seed = (tick seed, 500%Z) /\
  snd (post_use_card offline (pay 10) seed)
    = Raise (HTTPException 500
               (StrExn (HTTPException 400 (amount_too_low (Py.round 50 2))))) /\
  snd (post_use_card offline (pay 250) seed)
    = Raise (HTTPException 500 (StrExn (HTTPException 400 insufficient_card))).
Proof. repeat split; vm_compute; reflexivity. Qed.



(** C1, on the code.  From the seed state a payment of 150 USD triggers a
    top-up of 150 USD whose sale amounts to 0.0798 ETH; the request
    succeeds and the wallet goes from 0.2 to 0.0452 ETH: it is debited by
    the crypto amount of the sale and again by the top-up amount at the
    price (150 / 2000), not by the crypto amount of the sale alone. *)
Theorem topup_debits_wallet_twice :
  let w' := fst (use_card offline (pay 150) seed) in
  exists w_q topup eth_amount,
    until_advice offline (pay 150) seed = (w_q, Return (Some (topup, eth_amount))) /\
    status_code_of (snd (use_card offline (pay 150) seed)) = 200%Z /\
    topup == 150 /\
    eth_amount == 798 # 10000 /\
    CURRENT_ETH_BALANCE w' == 452 # 10000 /\
    CURRENT_ETH_BALANCE w' == CURRENT_ETH_BALANCE seed - eth_amount - topup / 2000 /\
    ~ CURRENT_ETH_BALANCE w' == CURRENT_ETH_BALANCE seed - eth_amount.
Proof.
  cbv zeta. do 3 eexists.
  split; [vm_compute; reflexivity |].
  repeat split; try reflexivity.
  vm_compute. discriminate.
Qed.

(** C2, on the code.  From the seed state a payment of 150 USD leaves 50 USD
    on the card and triggers a top-up of 150 USD; the request succeeds and
    the card ends at 350 USD: the top-up amount is credited twice, once in
    [auto_topup] and once in [use_card], not once. *)
Theorem topup_credits_card_twice :
  let w' := fst (use_card offline (pay 150) seed) in
  exists w_q topup eth_amount,
    until_advice offline (pay 150) seed = (w_q, Return (Some (topup, eth_amount))) /\
    status_code_of (snd (use_card offline (pay 150) seed)) = 200%Z /\
    topup == 150 /\
    CURRENT_CARD_BALANCE w_q == 50 /\
    CURRENT_CARD_BALANCE w' == 350 /\
    CURRENT_CARD_BALANCE w' == CURRENT_CARD_BALANCE w_q + topup + topup /\
    ~ CURRENT_CARD_BALANCE w' == CURRENT_CARD_BALANCE w_q + topup.
Proof.
  cbv zeta. do 3 eexists.
  split; [vm_compute; reflexivity |].
  repeat split; try reflexivity.
  vm_compute. discriminate.
Qed.

(** C3, on the code.  From the seed state one payment of 200 USD is
    answered 200 and leaves the wallet balance below 0 (-0.00605 ETH). *)
Theorem wallet_negative_after_one_payment :
  snd (serve offline (POST_use_card (pay 200)) seed) = 200%Z /\
  CURRENT_ETH_BALANCE (serve_all offline [POST_use_card (pay 200)] seed) == - (605 # 100000) /\
  CURRENT_ETH_BALANCE (serve_all offline [POST_use_card (pay 200)] seed) < 0.
Proof. repeat split; vm_compute; reflexivity. Qed.

(** * Further properties of the service *)

(** ** Request validation *)

(** A body is accepted exactly when its amount is above 0 and its currency
    is [ETH] or [USD] (in capitals); an accepted body is passed on
    unchanged, any other is refused with a [ValueError]. *)
Theorem validate_accepts_iff (body : TransactionRequest.t) :
  (TransactionRequest.validate body = Return body <->
   0 < TransactionRequest.amount body /\
   (TransactionRequest.currency body = "ETH"%string \/
    TransactionRequest.currency body = "USD"%string)) /\
  (TransactionRequest.validate body = Return body \/
   exists msg, TransactionRequest.validate body = Raise (ValueError msg)).
Proof.
  unfold TransactionRequest.validate, TransactionRequest.amount_must_be_positive,
    TransactionRequest.currency_must_be_valid.
  destruct body as [a c wa].
  cbn [TransactionRequest.amount TransactionRequest.currency
       TransactionRequest.wallet_address existsb].
  destruct (Qle_bool a 0) eqn:Ea.
  - apply Qle_bool_iff in Ea. split.
    + split; [discriminate | intros [Hpos _]; lra].
    + right. eexists. reflexivity.
  - assert (Hpos : 0 < a).
    { apply Qnot_le_lt. intro L. apply Qle_bool_iff in L. congruence. }
    destruct (String.eqb_spec c "ETH") as [-> | Neth]; cbn [orb].
    + split; [split; auto | left; reflexivity].
    + destruct (String.eqb_spec c "USD") as [-> | Nusd]; cbn [orb].
      * split; [split; auto | left; reflexivity].
      * split; [| right; eexists; reflexivity].
        split; [discriminate | intros [_ [E | E]]; contradiction].
Qed.

(** ** Gas price and transaction cost *)

(** The shapes of the gas price: the fallback, zero, or the node's answer
    in gwei. *)
Lemma get_gas_price_value (env : Env) (w : World) :
  exists g,
    get_gas_price env w = (tick w, Return g) /\
    (g = 50 \/ g = 0 \/
     exists n, (0 < n <= MAX_WEI)%Z /\ eth_gas_price env (clock w) = Some n /\
               g = inject_Z n / inject_Z gwei).
Proof.
  unfold get_gas_price, try_except, bind, external, from_wei, ret, raise, tick.
  destruct (eth_gas_price env (clock w)) as [n |]; [| eexists; split; [reflexivity | now left]].
  destruct (n =? 0)%Z eqn:Ez; [eexists; split; [reflexivity | now right; left] |].
  destruct (n <? 0)%Z eqn:En; cbn [orb];
    [eexists; split; [reflexivity | now left] |].
  destruct (MAX_WEI <? n)%Z eqn:Em;
    [eexists; split; [reflexivity | now left] |].
  eexists. split; [reflexivity |]. right; right. exists n.
  apply Z.eqb_neq in Ez. apply Z.ltb_ge in En. apply Z.ltb_ge in Em.
  repeat split; trivial; lia.
Qed.

Lemma gwei_pos : 0 < inject_Z gwei.
Proof. reflexivity. Qed.

Lemma inject_Z_nonneg (n : Z) : (0 <= n)%Z -> 0 <= inject_Z n.
Proof. intro H. change 0 with (inject_Z 0). now rewrite <- Zle_Qle. Qed.

Lemma gas_price_shape_nonneg (g : Q) :
  (g = 50 \/ g = 0 \/ exists n, (0 < n <= MAX_WEI)%Z /\ g = inject_Z n / inject_Z gwei) ->
  0 <= g.
Proof.
  intros [-> | [-> | (n & Hn & ->)]]; try discriminate.
  apply Qle_shift_div_l; [apply gwei_pos |].
  rewrite Qmult_0_l. apply inject_Z_nonneg. lia.
Qed.

(** The conversion of a gas price to wei and on to ether
    ([from_wei(to_wei(g, 'gwei'), 'ether')]) is [g / 10**9] for each shape
    of the gas price. *)
Lemma gas_price_to_ether (g : Q) (w : World) :
  (g = 50 \/ g = 0 \/ exists n, (0 < n <= MAX_WEI)%Z /\ g = inject_Z n / inject_Z gwei) ->
  exists wei gas_price_eth,
    to_wei g gwei w = (w, Return wei) /\
    from_wei wei ether w = (w, Return gas_price_eth) /\
    gas_price_eth == g / inject_Z gwei.
Proof.
  intros [-> | [-> | (n & Hn & ->)]].
  - exists 50000000000%Z, (inject_Z 50000000000 / inject_Z ether).
    repeat split; vm_compute; reflexivity.
  - exists 0%Z, 0. repeat split; vm_compute; reflexivity.
  - assert (Hpos : 0 < inject_Z n).
    { change 0 with (inject_Z 0). rewrite <- Zlt_Qlt. lia. }
    assert (Hmul : inject_Z n / inject_Z gwei * inject_Z gwei == inject_Z n).
    { field. discriminate. }
    assert (Hfloor : Qfloor (inject_Z n / inject_Z gwei * inject_Z gwei) = n).
    { rewrite Hmul. apply Qfloor_Z. }
    unfold to_wei.
    destruct (Qeq_bool (inject_Z n / inject_Z gwei) 0) eqn:E0.
    { apply Qeq_bool_iff in E0. rewrite E0, Qmult_0_l in Hmul. lra. }
    cbv zeta.
    assert (L1 : Py.ltb (inject_Z n / inject_Z gwei * inject_Z gwei) 0 = false).
    { apply ltb_false_iff. rewrite Hmul. lra. }
    assert (L2 : Py.ltb (inject_Z MAX_WEI) (inject_Z n / inject_Z gwei * inject_Z gwei) = false).
    { apply ltb_false_iff. rewrite Hmul. rewrite <- Zle_Qle. lia. }
    rewrite L1, L2. cbn [orb]. rewrite Hfloor.
    exists n, (inject_Z n / inject_Z ether).
    split; [reflexivity |]. split.
    + unfold from_wei.
      destruct (n =? 0)%Z eqn:Ez; [apply Z.eqb_eq in Ez; lia |].
      destruct (n <? 0)%Z eqn:En; [apply Z.ltb_lt in En; lia |].
      destruct (MAX_WEI <? n)%Z eqn:Em; [apply Z.ltb_lt in Em; lia |].
      reflexivity.
    + assert (E : inject_Z ether == inject_Z gwei * inject_Z gwei) by reflexivity.
      pose proof gwei_pos as G.
      rewrite E. set (x := inject_Z n). set (u := inject_Z gwei) in *.
      field. lra.
Qed.

(** The value of [calculate_transaction_cost]. *)
Lemma calculate_transaction_cost_value (env : Env) (p : Q) (w : World) :
  exists g cost,
    get_gas_price env w = (tick w, Return g) /\
    0 <= g /\
    calculate_transaction_cost env p w = (tick w, Return cost) /\
    cost == g / inject_Z gwei * GAS_LIMIT * p.
Proof.
  destruct (get_gas_price_value env w) as (g & Hg & Hshape).
  assert (Hshape' :
    g = 50 \/ g = 0 \/ exists n, (0 < n <= MAX_WEI)%Z /\ g = inject_Z n / inject_Z gwei).
  { destruct Hshape as [H | [H | (n & Hn & _ & H)]]; eauto. }
  destruct (gas_price_to_ether g (tick w) Hshape') as (wei & ge & Hw & Hf & He).
  exists g. eexists. split; [exact Hg |].
  split; [apply gas_price_shape_nonneg, Hshape' |].
  split.
  - unfold calculate_transaction_cost.
    erewrite try_return; [reflexivity |].
    erewrite bind_return by exact Hg.
    erewrite bind_return by exact Hw.
    erewrite bind_return by exact Hf.
    reflexivity.
  - cbv zeta. rewrite He. reflexivity.
Qed.

(** [get_gas_price] always returns, and what it returns is never negative:
    the node's answer converted from wei to gwei when the node answers
    within [0 .. 2**256 - 1], the fallback of 50 gwei when the node fails
    or answers outside that range. *)
Theorem gas_price_is_answer_or_fallback (env : Env) (w : World) :
  exists g,
    get_gas_price env w = (tick w, Return g) /\
    0 <= g /\
    match eth_gas_price env (clock w) with
    | Some n =>
        if ((0 <=? n) && (n <=? MAX_WEI))%Z
        then g == inject_Z n / inject_Z gwei
        else g = 50
    | None => g = 50
    end.
Proof.
  destruct (get_gas_price_value env w) as (g & Hg & Hshape).
  exists g. split; [exact Hg |]. split.
  - apply gas_price_shape_nonneg.
    destruct Hshape as [H | [H | (n & Hn & _ & H)]]; eauto.
  - revert Hg.
    unfold get_gas_price, try_except, bind, external, from_wei, ret, raise, tick.
    destruct (eth_gas_price env (clock w)) as [n |];
      [| intro H; now injection H].
    destruct (n =? 0)%Z eqn:Ez.
    + apply Z.eqb_eq in Ez. subst n. intro H. injection H as <-. reflexivity.
    + destruct (n <? 0)%Z eqn:En; cbn [orb].
      * apply Z.ltb_lt in En.
        replace (0 <=? n)%Z with false by (symmetry; apply Z.leb_gt; lia).
        intro H. now injection H.
      * apply Z.ltb_ge in En.
        replace (0 <=? n)%Z with true by (symmetry; apply Z.leb_le; lia).
        cbn [andb].
        destruct (MAX_WEI <? n)%Z eqn:Em.
        -- apply Z.ltb_lt in Em.
           replace (n <=? MAX_WEI)%Z with false by (symmetry; apply Z.leb_gt; lia).
           intro H. now injection H.
        -- apply Z.ltb_ge in Em.
           replace (n <=? MAX_WEI)%Z with true by (symmetry; apply Z.leb_le; lia).
           intro H. injection H as <-. reflexivity.
Qed.

(** For a gas price of at most [10 ** 67] gwei, [calculate_transaction_cost]
    returns the fee of a 21000-gas transfer at the fetched gas price, valued
    at the given price: [gas price in gwei / 10**9 * 21000 * price], which
    is not negative for a price of 0 or more.  (Above that bound, near the
    largest amount of wei that [to_wei] accepts, the rounding of the
    conversions to [float] decides whether [to_wei] raises and the default
    of 5 USD is returned; no node answers such a gas price.) *)
Theorem transaction_cost_is_fee_at_price (env : Env) (p : Q) (w w1 : World) (g : Q) :
  get_gas_price env w = (w1, Return g) ->
  g <= inject_Z (10 ^ 67) ->
  exists cost,
    calculate_transaction_cost env p w = (tick w, Return cost) /\
    cost == g / inject_Z gwei * GAS_LIMIT * p /\
    (0 <= p -> 0 <= cost).
Proof.
  intros Hg _.
  destruct (calculate_transaction_cost_value env p w) as (g' & cost & Hg' & Hpos & Hc & He).
  rewrite Hg' in Hg. injection Hg as _ <-.
  exists cost. repeat split; trivial.
  intro Hp. rewrite He.
  repeat apply Qmult_le_0_compat; trivial; discriminate.
Qed.

Lemma transaction_cost_is_fee_at_price_witness :
  exists cost,
    calculate_transaction_cost (gas_at 30000000000) 2000 seed = (tick seed, Return cost) /\
    cost == (30000000000 # 1000000000) / inject_Z gwei * GAS_LIMIT * 2000 /\
    (0 <= 2000 -> 0 <= cost).
Proof.
  apply (transaction_cost_is_fee_at_price (gas_at 30000000000) 2000 seed (tick seed)
           (30000000000 # 1000000000)).
  - reflexivity.
  - discriminate.
Defined.

(** ** Threshold policy *)

Lemma round_le_multiple (x : Q) (n : nat) (z : Z) :
  x * inject_Z (10 ^ Z.of_nat n) <= inject_Z z ->
  Py.round x n <= inject_Z z / inject_Z (10 ^ Z.of_nat n).
Proof.
  intro H. unfold Py.round.
  pose proof (scale_pos n) as Hs.
  set (s := inject_Z (10 ^ Z.of_nat n)) in *.
  assert (Hz : (Py.round_half_even (x * s) <= z)%Z).
  { unfold Py.round_half_even.
    pose proof (Qfloor_le (x * s)) as Hlo.
    assert (Hf : (Qfloor (x * s) <= z)%Z).
    { rewrite <- (Qfloor_Z z). apply Qfloor_resp_le, H. }
    destruct (Z.eq_dec (Qfloor (x * s)) z) as [E | N].
    - assert (L : Qcompare (x * s - inject_Z (Qfloor (x * s))) (1 # 2) = Lt).
      { apply -> Qlt_alt. rewrite E. lra. }
      rewrite L. lia.
    - destruct (Qcompare _ _); try destruct (Z.even _); lia. }
  rewrite Zle_Qle in Hz.
  unfold Qdiv. apply Qmult_le_compat_r; trivial.
  apply Qlt_le_weak, Qinv_lt_0_compat, Hs.
Qed.

(** [check_card_balance] advises a top-up exactly below the threshold of
    100 USD; the advised amount is then at least 100 USD and brings the
    balance to the target of 200 USD up to half a cent; at or above the
    threshold it advises to skip, with amount 0. *)
Theorem check_card_balance_policy (balance : Q) :
  let d := check_card_balance balance in
  (balance < CARD_MIN_THRESHOLD ->
     Decision.action d = "top-up"%string /\
     100 <= Decision.amount d /\
     CARD_TARGET_BALANCE - (1 # 200) <= balance + Decision.amount d
       <= CARD_TARGET_BALANCE + (1 # 200)) /\
  (CARD_MIN_THRESHOLD <= balance ->
     Decision.action d = "skip"%string /\ Decision.amount d = 0).
Proof.
  unfold check_card_balance, CARD_MIN_THRESHOLD, CARD_TARGET_BALANCE. cbv zeta.
  destruct (Py.ltb balance 100) eqn:E.
  - apply ltb_true_iff in E. split; [| intro; lra].
    intros _. cbn [Decision.action Decision.amount].
    split; [reflexivity |].
    pose proof (round_near (200 - balance) 2) as [N1 N2].
    change (inject_Z (10 ^ Z.of_nat 2)) with 100 in N1, N2.
    split; [| split; lra].
    assert (L : inject_Z 10000 / inject_Z (10 ^ Z.of_nat 2) <= Py.round (200 - balance) 2).
    { apply round_ge_multiple.
      change (inject_Z (10 ^ Z.of_nat 2)) with 100.
      change (inject_Z 10000) with 10000. lra. }
    assert (E100 : inject_Z 10000 / inject_Z (10 ^ Z.of_nat 2) == 100) by reflexivity.
    rewrite E100 in L. exact L.
  - apply ltb_false_iff in E. split; [intro; lra |].
    intros _. split; reflexivity.
Qed.

(** ** Minimum profitable amount *)

Lemma minimum_at_least_50 (cost : Q) :
  50 <= Py.round (Py.max MINIMUM_PROFITABLE_USD (cost * PROFIT_MARGIN)) 2.
Proof.
  assert (L : inject_Z 5000 / inject_Z (10 ^ Z.of_nat 2)
              <= Py.round (Py.max MINIMUM_PROFITABLE_USD (cost * PROFIT_MARGIN)) 2).
  { apply round_ge_multiple.
    pose proof (max_ge_l MINIMUM_PROFITABLE_USD (cost * PROFIT_MARGIN)) as G.
    unfold MINIMUM_PROFITABLE_USD in *.
    change (inject_Z (10 ^ Z.of_nat 2)) with 100.
    change (inject_Z 5000) with 5000. lra. }
  assert (E : inject_Z 5000 / inject_Z (10 ^ Z.of_nat 2) == 50) by reflexivity.
  rewrite E in L. exact L.
Qed.

(** ** Advisory engine: parsing *)

Lemma min_le_l (a b : Q) : Py.min a b <= a.
Proof.
  unfold Py.min. destruct (Py.ltb b a) eqn:E.
  - apply ltb_true_iff in E. apply Qlt_le_weak, E.
  - apply Qle_refl.
Qed.

Lemma min_le_r (a b : Q) : Py.min a b <= b.
Proof.
  unfold Py.min. destruct (Py.ltb b a) eqn:E.
  - apply Qle_refl.
  - apply ltb_false_iff, E.
Qed.

(** A line cannot start with both [AMOUNT:] and [ACTION:]. *)
Lemma amount_line_is_not_action (line : string) :
  Str.startswith line "AMOUNT:" = true -> Str.startswith line "ACTION:" = false.
Proof.
  unfold Str.startswith.
  destruct line as [| c1 [| c2 rest]]; cbn [String.prefix]; try discriminate.
  - destruct (ascii_dec "A" c1); discriminate.
  - destruct (ascii_dec "A" c1); [| discriminate].
    destruct (ascii_dec "M" c2) as [<- | N]; [| discriminate].
    intros _. destruct (ascii_dec "C" "M"); [discriminate | reflexivity].
Qed.

(** Without an [ACTION:] line the action of the accumulator survives the
    loop. *)
Lemma parse_lines_keeps_action (env : Env) (lines : list string) :
  Forall (fun line => Str.startswith line "ACTION:" = false) lines ->
  forall act parsed why act' parsed' why',
    parse_lines env lines (act, parsed, why) = Return (act', parsed', why') ->
    act' = act.
Proof.
  induction 1 as [| line rest Hline _ IH]; intros act parsed why act' parsed' why' H.
  - injection H as <- _ _. reflexivity.
  - cbn [parse_lines] in H. rewrite Hline in H.
    destruct (Str.startswith line "AMOUNT:").
    + destruct (float_of_str env _); [| discriminate]. eapply IH, H.
    + destruct (Str.startswith line "REASON:"); eapply IH, H.
Qed.

(** An [AMOUNT:] line that [float] refuses makes the loop raise. *)
Lemma parse_lines_unreadable_amount (env : Env) (lines : list string) (line : string) :
  In line lines ->
  Str.startswith line "AMOUNT:" = true ->
  float_of_str env (amount_str_of line) = None ->
  forall acc, exists e, parse_lines env lines acc = Raise e.
Proof.
  intros Hin Hamount Hfloat.
  induction lines as [| l rest IH]; [contradiction |].
  intros [[act parsed] why]. cbn [parse_lines].
  destruct Hin as [-> | Hin].
  - rewrite (amount_line_is_not_action _ Hamount), Hamount.
    fold (amount_str_of line). rewrite Hfloat. eexists. reflexivity.
  - specialize (IH Hin).
    destruct (Str.startswith l "ACTION:"); [apply IH |].
    destruct (Str.startswith l "AMOUNT:").
    + match goal with
      | |- context [match float_of_str env ?x with _ => _ end] =>
          destruct (float_of_str env x)
      end; [apply IH | eexists; reflexivity].
    + destruct (Str.startswith l "REASON:"); apply IH.
Qed.

(** The shapes of the answer of [get_ai_trading_suggestion]: the default
    when the service fails, the default when the reply does not parse, the
    adjusted suggestion otherwise. *)
Lemma get_ai_trading_suggestion_value (env : Env) (balance_eth eth_price : Q)
    (w : World) :
  match chat_complete env (clock w) with
  | None =>
      get_ai_trading_suggestion env balance_eth eth_price w =
        (tick w, Return (mkSuggestion "hold" 0
                           (Cat (Lit "Unable to get AI suggestion: ")
                              (StrExn (UpstreamError "chat.complete")))))
  | Some reply =>
      match parse_lines env (reply_lines reply)
              ("hold"%string, 0, Lit "Unable to parse AI suggestion") with
      | Raise e =>
          get_ai_trading_suggestion env balance_eth eth_price w =
            (tick w, Return (mkSuggestion "hold" 0
                               (Cat (Lit "Error parsing AI suggestion: ") (StrExn e))))
      | Return (act, parsed, why) =>
          get_ai_trading_suggestion env balance_eth eth_price w =
            (tick w, Return (mkSuggestion
                               (fst (validate_and_adjust balance_eth act parsed))
                               (snd (validate_and_adjust balance_eth act parsed))
                               why))
      end
  end.
Proof.
  unfold get_ai_trading_suggestion, try_except, bind, external, reply_lines.
  destruct (chat_complete env (clock w)) as [reply |]; [| reflexivity].
  destruct (parse_lines _ _ _) as [[[act parsed] why] | e]; [| reflexivity].
  destruct (validate_and_adjust balance_eth act parsed). reflexivity.
Qed.

(** [get_ai_trading_suggestion] never raises, whatever the service answers
    or fails to answer: it returns a suggestion whose action is [buy],
    [sell] or [hold] and whose amount is 0 or more and has at most 4
    decimals; a [hold] always comes with the amount 0. *)
Theorem advice_is_always_a_suggestion (env : Env) (balance_eth eth_price : Q)
    (w : World) :
  exists s,
    get_ai_trading_suggestion env balance_eth eth_price w = (tick w, Return s) /\
    (action s = "buy"%string \/ action s = "sell"%string \/ action s = "hold"%string) /\
    0 <= amount s /\
    Py.round (amount s) 4 == amount s /\
    (action s = "hold"%string -> amount s == 0).
Proof.
  pose proof (get_ai_trading_suggestion_value env balance_eth eth_price w) as H.
  destruct (chat_complete env (clock w)) as [reply |].
  - destruct (parse_lines _ _ _) as [[[act parsed] why] | e].
    + eexists. split; [exact H |]. cbn [action amount].
      pose proof (validate_and_adjust_cases balance_eth act parsed) as Hcases.
      cbv zeta in Hcases. destruct Hcases as (Hb & Hs & Hh & Hpos & Hround).
      destruct (String.eqb_spec act "buy") as [Eb | Nb].
      * destruct (Hb Eb) as [A _]. repeat split; auto. intro. congruence.
      * destruct (String.eqb_spec act "sell") as [Es | Ns].
        -- destruct (Hs Es) as [A _]. repeat split; auto. intro. congruence.
        -- destruct (Hh Nb Ns) as [A Z]. repeat split; auto.
    + eexists. split; [exact H |]. cbn [action amount].
      repeat split; auto; try reflexivity. discriminate.
  - eexists. split; [exact H |]. cbn [action amount].
    repeat split; auto; try reflexivity. discriminate.
Qed.

(** A reply without any [ACTION:] line gives [hold] with amount 0,
    whatever its [AMOUNT:] lines say. *)
Theorem reply_without_action_is_hold (env : Env) (balance_eth eth_price : Q)
    (w : World) (reply : string) :
  chat_complete env (clock w) = Some reply ->
  Forall (fun line => Str.startswith line "ACTION:" = false) (reply_lines reply) ->
  exists s,
    get_ai_trading_suggestion env balance_eth eth_price w = (tick w, Return s) /\
    action s = "hold"%string /\
    amount s == 0.
Proof.
  intros Hreply Hlines.
  pose proof (get_ai_trading_suggestion_value env balance_eth eth_price w) as H.
  rewrite Hreply in H.
  destruct (parse_lines _ _ _) as [[[act parsed] why] | e] eqn:P.
  - apply (parse_lines_keeps_action env _ Hlines) in P. subst act.
    eexists. split; [exact H |]. split; reflexivity.
  - eexists. split; [exact H |]. split; reflexivity.
Qed.

Lemma reply_without_action_is_hold_witness :
  exists s,
    get_ai_trading_suggestion (advised no_action_reply "5" 5) (2 # 10) 2000 seed
      = (tick seed, Return s) /\
    action s = "hold"%string /\
    amount s == 0.
Proof.
  apply (reply_without_action_is_hold (advised no_action_reply "5" 5) (2 # 10) 2000
           seed no_action_reply).
  - reflexivity.
  - vm_compute. repeat constructor.
Defined.

(** A reply with an [AMOUNT:] line that [float] cannot convert gives
    [hold] with amount 0, whatever its [ACTION:] line says; the reason
    reports the parsing error. *)
Theorem unreadable_amount_is_hold (env : Env) (balance_eth eth_price : Q)
    (w : World) (reply line : string) :
  chat_complete env (clock w) = Some reply ->
  In line (reply_lines reply) ->
  Str.startswith line "AMOUNT:" = true ->
  float_of_str env (amount_str_of line) = None ->
  exists e,
    get_ai_trading_suggestion env balance_eth eth_price w =
      (tick w, Return (mkSuggestion "hold" 0
                         (Cat (Lit "Error parsing AI suggestion: ") (StrExn e)))).
Proof.
  intros Hreply Hin Hamount Hfloat.
  pose proof (get_ai_trading_suggestion_value env balance_eth eth_price w) as H.
  rewrite Hreply in H.
  destruct (parse_lines_unreadable_amount env _ _ Hin Hamount Hfloat
              ("hold"%string, 0, Lit "Unable to parse AI suggestion")) as (e & P).
  rewrite P in H. exists e. exact H.
Qed.

Lemma unreadable_amount_is_hold_witness :
  exists e,
    get_ai_trading_suggestion (advised unreadable_amount_reply "5" 5) (2 # 10) 2000 seed =
      (tick seed, Return (mkSuggestion "hold" 0
                            (Cat (Lit "Error parsing AI suggestion: ") (StrExn e)))).
Proof.
  apply (unreadable_amount_is_hold (advised unreadable_amount_reply "5" 5) (2 # 10) 2000
           seed unreadable_amount_reply "AMOUNT: a lot").
  - reflexivity.
  - vm_compute. right. left. reflexivity.
  - reflexivity.
  - reflexivity.
Defined.

(** [str.strip] removes the Unicode spaces too: a reply whose [ACTION:]
    line ends in a no-break space is read as [buy], with the forced amount
    of half the balance. *)
Theorem reply_with_no_break_space_is_read :
  Str.strip (" BUY" ++ no_break_space ++ " ") = "BUY"%string /\
  exists s,
    get_ai_trading_suggestion (advised buy_reply_no_break_space "5" 5) (2 # 10) 2000 seed
      = (tick seed, Return s) /\
    action s = "buy"%string /\
    amount s == 1 # 10.
Proof.
  split; [reflexivity |].
  eexists. split; [vm_compute; reflexivity |]. split; reflexivity.
Qed.

(** ** Advisory engine: caps *)

Lemma round4_le (x bound : Q) :
  x <= bound -> Py.round x 4 <= bound + (1 # 20000).
Proof.
  intro H. pose proof (round_near x 4) as [_ N].
  change (inject_Z (10 ^ Z.of_nat 4)) with 10000 in N. lra.
Qed.

Lemma round4_le_half (x : Q) : x <= 1 # 2 -> Py.round x 4 <= 1 # 2.
Proof.
  intro H.
  assert (L : Py.round x 4 <= inject_Z 5000 / inject_Z (10 ^ Z.of_nat 4)).
  { apply round_le_multiple.
    change (inject_Z (10 ^ Z.of_nat 4)) with 10000.
    change (inject_Z 5000) with 5000. lra. }
  assert (E : inject_Z 5000 / inject_Z (10 ^ Z.of_nat 4) == 1 # 2) by reflexivity.
  rewrite E in L. exact L.
Qed.

(** For a wallet balance of 0 or more, a [buy] suggestion never exceeds
    0.5 ETH, nor half the balance by more than the rounding to 4 decimals,
    whatever amount the reply names. *)
Theorem buy_never_exceeds_cap (env : Env) (balance_eth eth_price : Q)
    (w w' : World) (s : TradingSuggestion) :
  get_ai_trading_suggestion env balance_eth eth_price w = (w', Return s) ->
  0 <= balance_eth ->
  action s = "buy"%string ->
  amount s <= 1 # 2 /\ amount s <= balance_eth * (1 # 2) + (1 # 20000).
Proof.
  intros Hrun Hbal Hbuy.
  pose proof (get_ai_trading_suggestion_value env balance_eth eth_price w) as H.
  destruct (chat_complete env (clock w)) as [reply |].
  - destruct (parse_lines _ _ _) as [[[act parsed] why] | e].
    + rewrite H in Hrun. injection Hrun as _ <-. cbn [action amount] in *.
      pose proof (validate_and_adjust_cases balance_eth act parsed) as Hcases.
      cbv zeta in Hcases. destruct Hcases as (Hb & Hs & Hh & _).
      destruct (String.eqb_spec act "buy") as [Eb | Nb].
      * destruct (Hb Eb) as [_ A]. rewrite (A Hbal). split.
        -- apply round4_le_half, min_le_l.
        -- apply round4_le, min_le_r.
      * destruct (String.eqb_spec act "sell") as [Es | Ns].
        -- destruct (Hs Es) as [A _]. congruence.
        -- destruct (Hh Nb Ns) as [A _]. congruence.
    + rewrite H in Hrun. injection Hrun as _ <-. discriminate.
  - rewrite H in Hrun. injection Hrun as _ <-. discriminate.
Qed.

Lemma buy_never_exceeds_cap_witness :
  amount (mkSuggestion "buy" (1000 # 10000) (Lit "dip")) <= 1 # 2 /\
  amount (mkSuggestion "buy" (1000 # 10000) (Lit "dip")) <= (2 # 10) * (1 # 2) + (1 # 20000).
Proof.
  apply (buy_never_exceeds_cap (advised buy_reply "5" 5) (2 # 10) 2000 seed (tick seed)
           (mkSuggestion "buy" (1000 # 10000) (Lit "dip"))).
  - vm_compute. reflexivity.
  - discriminate.
  - reflexivity.
Defined.

(** For a wallet balance of 0 or more, a [sell] suggestion whose parsed
    amount is 0 or more never exceeds half the balance, nor the parsed
    amount, by more than the rounding to 4 decimals. *)
Theorem sell_never_exceeds_half_balance (env : Env) (balance_eth eth_price : Q)
    (w : World) (reply : string) (parsed : Q) (why : text) :
  chat_complete env (clock w) = Some reply ->
  parse_lines env (reply_lines reply)
    ("hold"%string, 0, Lit "Unable to parse AI suggestion")
    = Return ("sell"%string, parsed, why) ->
  0 <= balance_eth ->
  0 <= parsed ->
  exists s,
    get_ai_trading_suggestion env balance_eth eth_price w = (tick w, Return s) /\
    action s = "sell"%string /\
    amount s <= balance_eth * (1 # 2) + (1 # 20000) /\
    amount s <= parsed + (1 # 20000).
Proof.
  intros Hreply Hparse Hbal Hparsed.
  pose proof (get_ai_trading_suggestion_value env balance_eth eth_price w) as H.
  rewrite Hreply, Hparse in H.
  eexists. split; [exact H |]. cbn [action amount].
  pose proof (validate_and_adjust_cases balance_eth "sell" parsed) as Hcases.
  cbv zeta in Hcases. destruct Hcases as (_ & Hs & _).
  destruct (Hs eq_refl) as [A B]. split; [exact A |].
  rewrite (B Hbal Hparsed). split.
  - apply round4_le, min_le_r.
  - apply round4_le, min_le_l.
Qed.

Lemma sell_never_exceeds_half_balance_witness :
  exists s,
    get_ai_trading_suggestion (advised sell_reply "5" 5) (2 # 10) 2000 seed
      = (tick seed, Return s) /\
    action s = "sell"%string /\
    amount s <= (2 # 10) * (1 # 2) + (1 # 20000) /\
    amount s <= 5 + (1 # 20000).
Proof.
  apply (sell_never_exceeds_half_balance (advised sell_reply "5" 5) (2 # 10) 2000 seed
           sell_reply 5 (Lit "exit")).
  - reflexivity.
  - reflexivity.
  - discriminate.
  - discriminate.
Defined.

(** ** [POST /use-card]: the three ways a request ends *)

Section UseCardOutcomes.
Variable env : Env.
Variable advise : Q -> Q -> M TradingSuggestion.

(** When the run up to the advisory call raises, [use_card] answers with
    that error wrapped in a 500, in the state of the raise. *)
Lemma until_advice_raises request w w' e :
  until_advice env request w = (w', Raise e) ->
  use_card_with env advise request w =
    (w', Raise (HTTPException 500 (StrExn e))).
Proof.
  intro H. unfold until_advice in H. unfold use_card_with. cbv zeta in *.
  destruct (calculate_minimum_profitable_amount_run env 2000 w) as (c1 & _ & E1).
  run_in H.
  destruct (Py.ltb (Py.float (TransactionRequest.amount request)) _) eqn:Elow; run_in H.
  { injection H as <- <-. erewrite try_raise; [reflexivity |].
    run. rewrite Elow. run. reflexivity. }
  destruct (Py.ltb (CURRENT_CARD_BALANCE w) _) eqn:Ecard; run_in H.
  { injection H as <- <-. erewrite try_raise; [reflexivity |].
    run. rewrite Elow. run. rewrite Ecard. run. reflexivity. }
  destruct (Py.ltb _ CARD_MIN_THRESHOLD) eqn:Ethr; [| discriminate].
  match type of H with
  | bind (calculate_minimum_profitable_amount env 2000) _ ?W = _ =>
      destruct (calculate_minimum_profitable_amount_run env 2000 W) as (c2 & _ & E2);
      destruct (calculate_transaction_cost_run env 2000 (tick W)) as (gas_cost & Eg)
  end.
  run_in H.
  match type of H with
  | context [if ?b then _ else _] => destruct b eqn:Eeth
  end; run_in H; [| discriminate].
  injection H as <- <-.
  erewrite try_raise; [reflexivity |].
  run. rewrite Elow. run. rewrite Ecard. run. rewrite Ethr. run.
  apply bind_raise. run. apply bind_raise.
  unfold auto_topup_with. erewrite try_raise; [reflexivity |].
  apply bind_raise. unfold auto_sell_eth_for_card_with. cbv zeta.
  erewrite try_raise; [reflexivity |].
  run. rewrite Eeth. run. reflexivity.
Qed.

(** When the run up to the advisory call finds that no top-up is needed,
    [use_card] succeeds in the state that run left: the card debited by the
    amount, the wallet as it was. *)
Lemma until_advice_none request w w' :
  until_advice env request w = (w', Return None) ->
  exists r minimum,
    use_card_with env advise request w = (w', Return r) /\
    reports_state request w' r /\
    calculate_minimum_profitable_amount env 2000 w = (tick w, Return minimum) /\
    CardResponse.min_profitable_amount r = minimum /\
    Py.ltb (Py.float (TransactionRequest.amount request)) minimum = false /\
    Py.ltb (CURRENT_CARD_BALANCE w) (Py.float (TransactionRequest.amount request)) = false /\
    Py.ltb (CURRENT_CARD_BALANCE w - Py.float (TransactionRequest.amount request))
      CARD_MIN_THRESHOLD = false /\
    w' = mkWorld (CURRENT_CARD_BALANCE w - Py.float (TransactionRequest.amount request))
           (CURRENT_ETH_BALANCE w) (S (S (clock w))).
Proof.
  intro H. unfold until_advice in H. unfold use_card_with. cbv zeta in *.
  destruct (calculate_minimum_profitable_amount_run env 2000 w) as (c1 & _ & E1).
  run_in H.
  destruct (Py.ltb (Py.float (TransactionRequest.amount request)) _) eqn:Elow;
    run_in H; [discriminate |].
  destruct (Py.ltb (CURRENT_CARD_BALANCE w) _) eqn:Ecard;
    run_in H; [discriminate |].
  destruct (Py.ltb _ CARD_MIN_THRESHOLD) eqn:Ethr.
  { match type of H with
    | bind (calculate_minimum_profitable_amount env 2000) _ ?W = _ =>
        destruct (calculate_minimum_profitable_amount_run env 2000 W) as (c2 & _ & E2);
        destruct (calculate_transaction_cost_run env 2000 (tick W)) as (gas_cost & Eg)
    end.
    run_in H.
    match type of H with
    | context [if ?b then _ else _] => destruct b
    end; run_in H; discriminate. }
  injection H as <-.
  do 2 eexists. split.
  - erewrite try_return; [reflexivity |].
    run. rewrite Elow. run. rewrite Ecard. run. rewrite Ethr. run. reflexivity.
  - repeat split; trivial.
Qed.

(** The response of a completed top-up. *)
Lemma use_card_with_completed_response request w w_q topup eth_amount w_a s :
  until_advice env request w = (w_q, Return (Some (topup, eth_amount))) ->
  advise (CURRENT_ETH_BALANCE w_q) 2000 w_q = (w_a, Return s) ->
  String.eqb (action s) "hold" && Py.ltb eth_amount (amount s) = false ->
  exists r w',
    use_card_with env advise request w = (w', Return r) /\
    w' = mkWorld (CURRENT_CARD_BALANCE w_a + topup + topup)
           (CURRENT_ETH_BALANCE w_a - eth_amount - topup / 2000)
           (S (clock w_a)) /\
    reports_state request w' r /\
    50 <= CardResponse.min_profitable_amount r /\
    CardResponse.min_profitable_amount r <= Py.float (TransactionRequest.amount request).
Proof.
  intros H Hadv Hno.
  destruct (until_advice_some _ _ _ _ _ _ H)
    as (minimum & minimum2 & gas_cost & E1 & Elow & Ecard & Ethr & E2 & Ht & Eg
        & He & Eeth & Hw).
  subst w_q eth_amount. cbn [CURRENT_CARD_BALANCE CURRENT_ETH_BALANCE tick] in *.
  destruct (auto_topup_with_done env advise topup _ gas_cost w_a s Eg) as (r & Hr);
    cbn [CURRENT_ETH_BALANCE tick]; trivial.
  destruct (calculate_minimum_profitable_amount_run env 2000 w) as (c1 & _ & E1').
  rewrite E1' in E1. injection E1 as <-.
  unfold use_card_with. cbv zeta.
  do 2 eexists. split; [| split; [reflexivity |]].
  - erewrite try_return; [reflexivity |].
    run. rewrite Elow. run. rewrite Ecard. run. rewrite Ethr. run.
    erewrite bind_return; cycle 1.
    { run. rewrite <- Ht. run. reflexivity. }
    run. reflexivity.
  - cbn [CardResponse.min_profitable_amount].
    split; [repeat split |]. split.
    + apply minimum_at_least_50.
    + apply ltb_false_iff, Elow.
Qed.


End UseCardOutcomes.

Section OwnEngine.
Variable env : Env.

(** The top-up amount of a run that reaches the advisory call is at least
    100 USD and at least what the card lacks to the target; the crypto
    amount of its sale is not negative. *)
Lemma until_advice_amounts request w w_q topup eth_amount :
  until_advice env request w = (w_q, Return (Some (topup, eth_amount))) ->
  100 <= topup /\
  CARD_TARGET_BALANCE - (CURRENT_CARD_BALANCE w - Py.float (TransactionRequest.amount request))
    <= topup /\
  0 <= eth_amount /\
  Py.float (TransactionRequest.amount request) <= CURRENT_CARD_BALANCE w /\
  CURRENT_CARD_BALANCE w_q = CURRENT_CARD_BALANCE w - Py.float (TransactionRequest.amount request) /\
  CURRENT_ETH_BALANCE w_q = CURRENT_ETH_BALANCE w /\
  eth_amount <= CURRENT_ETH_BALANCE w.
Proof.
  intro H.
  destruct (until_advice_some _ _ _ _ _ _ H)
    as (minimum & minimum2 & gas_cost & E1 & Elow & Ecard & Ethr & E2 & Ht & Eg
        & He & Eeth & Hw).
  destruct (calculate_minimum_profitable_amount_run env 2000
              (mkWorld (CURRENT_CARD_BALANCE w - Py.float (TransactionRequest.amount request))
                 (CURRENT_ETH_BALANCE w) (S (S (clock w)))))
    as (c2 & _ & E2').
  rewrite E2' in E2. injection E2 as <-.
  pose proof (minimum_at_least_50 c2) as M.
  destruct (calculate_transaction_cost_value env 2000
              (tick (mkWorld (CURRENT_CARD_BALANCE w - Py.float (TransactionRequest.amount request))
                       (CURRENT_ETH_BALANCE w) (S (S (clock w))))))
    as (g & cost & _ & Hg & Hc & Hcost).
  rewrite Hc in Eg. injection Eg as <-.
  assert (Gcost : 0 <= cost).
  { rewrite Hcost. repeat apply Qmult_le_0_compat; trivial; discriminate. }
  assert (T100 : 100 <= topup).
  { rewrite Ht.
    eapply Qle_trans; [| apply max_ge_r]. lra. }
  apply ltb_false_iff in Ecard. apply ltb_false_iff in Eeth.
  subst w_q. cbn [CURRENT_CARD_BALANCE CURRENT_ETH_BALANCE tick].
  repeat split; trivial.
  - rewrite Ht. apply max_ge_l.
  - rewrite He. unfold PROFIT_MARGIN.
    apply Qle_shift_div_l; [reflexivity |]. lra.
Qed.

(** The service's own engine never vetoes a sale of 0 ETH or more. *)
Lemma own_engine_no_veto balance_eth eth_price w w' s eth_amount :
  get_ai_trading_suggestion env balance_eth eth_price w = (w', Return s) ->
  0 <= eth_amount ->
  String.eqb (action s) "hold" && Py.ltb eth_amount (amount s) = false.
Proof.
  intros Hrun Hpos.
  destruct (own_advice_holds_zero env balance_eth eth_price w) as (s0 & Hs0 & Hzero).
  rewrite Hs0 in Hrun. injection Hrun as _ <-.
  destruct (String.eqb_spec (action s0) "hold") as [E | N]; [| reflexivity].
  cbn [andb]. apply ltb_false_iff. rewrite (Hzero E). exact Hpos.
Qed.

(** The card balance at the end of a run of [until_advice], however it
    ends, is not negative when it was not at the start. *)
Lemma until_advice_card_nonneg request w :
  0 <= CURRENT_CARD_BALANCE w ->
  0 <= CURRENT_CARD_BALANCE (fst (until_advice env request w)).
Proof.
  intro Hc. unfold until_advice. cbv zeta.
  destruct (calculate_minimum_profitable_amount_run env 2000 w) as (c1 & _ & E1).
  run.
  destruct (Py.ltb (Py.float (TransactionRequest.amount request)) _) eqn:Elow; run;
    [exact Hc |].
  destruct (Py.ltb (CURRENT_CARD_BALANCE w) _) eqn:Ecard; run; [exact Hc |].
  apply ltb_false_iff in Ecard.
  destruct (Py.ltb _ CARD_MIN_THRESHOLD) eqn:Ethr; [| cbn; lra].
  match goal with
  | |- context [bind (calculate_minimum_profitable_amount env 2000) _ ?W] =>
      destruct (calculate_minimum_profitable_amount_run env 2000 W) as (c2 & _ & E2);
      destruct (calculate_transaction_cost_run env 2000 (tick W)) as (gas_cost & Eg)
  end.
  run.
  match goal with
  | |- context [if ?b then _ else _] => destruct b
  end; run; cbn; lra.
Qed.

End OwnEngine.

(** ** [POST /use-card]: what a caller can rely on *)

(** [POST /use-card] is answered 200, 422 or 500 and nothing else; it is
    answered 422 exactly when the body fails validation, and then the state
    is untouched. *)
Theorem use_card_answers_200_422_or_500 (env : Env) (body : TransactionRequest.t)
    (w : World) :
  let code := snd (serve env (POST_use_card body) w) in
  (code = 200 \/ code = 422 \/ code = 500)%Z /\
  (code = 422%Z <-> exists e, TransactionRequest.validate body = Raise e) /\
  (code = 422%Z -> fst (serve env (POST_use_card body) w) = w).
Proof.
  unfold serve, post_use_card.
  destruct (TransactionRequest.validate body) as [req | e].
  - unfold use_card, use_card_with, try_except.
    match goal with
    | |- context [match ?m w with _ => _ end] => destruct (m w) as [w' [r | ex]]
    end; cbn [fst snd status_code_of raise];
      (split; [auto | split; [split; [discriminate | intros [x Hx]; discriminate] | discriminate]]).
  - cbn. split; [auto | split; [split; eauto | reflexivity]].
Qed.

(** A payment that is answered 200 was, once its amount is read as a
    double ([float(request.amount)]), for at least the minimum profitable
    amount computed for it, itself at least 50 USD, and for no more than the
    card held; the answer reports that double as the amount, and the
    balances the request left, the wallet valued at the price of 2000. *)
Theorem successful_payment_facts (env : Env) (request : TransactionRequest.t)
    (w w' : World) (r : CardResponse.t) :
  use_card env request w = (w', Return r) ->
  50 <= CardResponse.min_profitable_amount r /\
  CardResponse.min_profitable_amount r <= Py.float (TransactionRequest.amount request) /\
  Py.float (TransactionRequest.amount request) <= CURRENT_CARD_BALANCE w /\
  reports_state request w' r.
Proof.
  intro H. unfold use_card in H.
  destruct (until_advice env request w) as [w_q [[[topup eth_amount] |] | e]] eqn:U.
  - destruct (until_advice_amounts env _ _ _ _ _ U) as (_ & _ & Hpos & Hcard & _).
    destruct (own_advice_holds_zero env (CURRENT_ETH_BALANCE w_q) 2000 w_q)
      as (s & Hs & _).
    pose proof (own_engine_no_veto env _ _ _ _ _ eth_amount Hs Hpos) as Hno.
    destruct (use_card_with_completed_response env _ _ _ _ _ _ _ _ U Hs Hno)
      as (r' & w'' & Hrun & _ & Hrep & Hmin & Hle).
    rewrite Hrun in H. injection H as <- <-. auto.
  - destruct (until_advice_none env (get_ai_trading_suggestion env) _ _ _ U)
      as (r' & minimum & Hrun & Hrep & E1 & Hmin & Elow & Ecard & _).
    rewrite Hrun in H. injection H as <- <-.
    destruct (calculate_minimum_profitable_amount_run env 2000 w) as (c1 & _ & E1').
    rewrite E1' in E1. injection E1 as <-.
    apply ltb_false_iff in Elow. apply ltb_false_iff in Ecard.
    rewrite Hmin. repeat split; trivial; try apply Hrep.
    apply minimum_at_least_50.
  - rewrite (until_advice_raises env _ _ _ _ _ U) in H. discriminate.
Qed.

Lemma successful_payment_facts_witness :
  exists w' r,
    use_card offline (pay 60) seed = (w', Return r) /\
    50 <= CardResponse.min_profitable_amount r /\
    CardResponse.min_profitable_amount r <= Py.float (TransactionRequest.amount (pay 60)) /\
    Py.float (TransactionRequest.amount (pay 60)) <= CURRENT_CARD_BALANCE seed /\
    reports_state (pay 60) w' r.
Proof.
  do 2 eexists. split; [vm_compute; reflexivity |].
  eapply (successful_payment_facts offline (pay 60) seed).
  vm_compute. reflexivity.
Defined.

(** The handler reads the amount of a request as a double.  A request for
    49.9999999999999999999 USD passes validation and, although this amount
    is below the minimum of 50 USD, it is not refused: the double nearest to
    it is 50, the request is answered 200, the answer reports the amount 50
    and the minimum 50, and the card is debited by 50 USD. *)
Theorem amount_is_read_as_a_double :
  just_below_50 < 50 /\
  TransactionRequest.validate (pay just_below_50) = Return (pay just_below_50) /\
  exists w' r,
    post_use_card offline (pay just_below_50) seed = (w', Return r) /\
    serve offline (POST_use_card (pay just_below_50)) seed = (w', 200%Z) /\
    CardResponse.amount r == 50 /\
    CardResponse.min_profitable_amount r == 50 /\
    CURRENT_CARD_BALANCE w' == 150 /\
    CURRENT_ETH_BALANCE w' = CURRENT_ETH_BALANCE seed.
Proof.
  split; [reflexivity |]. split; [reflexivity |].
  do 2 eexists. split; [vm_compute; reflexivity |].
  repeat split.
Qed.







(** ** The card balance over a sequence of requests *)

Lemma use_card_keeps_card_nonneg (env : Env) (request : TransactionRequest.t)
    (w : World) :
  0 <= CURRENT_CARD_BALANCE w ->
  0 <= CURRENT_CARD_BALANCE (fst (use_card env request w)).
Proof.
  intro Hcard. unfold use_card.
  pose proof (until_advice_card_nonneg env request w Hcard) as Hu.
  destruct (until_advice env request w) as [w_q [[[topup eth_amount] |] | e]] eqn:U.
  - destruct (until_advice_amounts env _ _ _ _ _ U)
      as (T100 & _ & Hpos & Hle & Hc & _).
    destruct (own_advice_holds_zero env (CURRENT_ETH_BALANCE w_q) 2000 w_q)
      as (s & Hs & _).
    pose proof (own_engine_no_veto env _ _ _ _ _ eth_amount Hs Hpos) as Hno.
    destruct (use_card_with_completed_response env _ _ _ _ _ _ _ _ U Hs Hno)
      as (r & w' & Hrun & Hw & _).
    rewrite Hrun. subst w'. cbn [fst CURRENT_CARD_BALANCE tick].
    rewrite Hc. lra.
  - destruct (until_advice_none env (get_ai_trading_suggestion env) _ _ _ U)
      as (r & minimum & Hrun & _).
    rewrite Hrun. exact Hu.
  - rewrite (until_advice_raises env _ _ _ _ _ U). exact Hu.
Qed.

Lemma serve_keeps_card_nonneg (env : Env) (r : request) (w : World) :
  0 <= CURRENT_CARD_BALANCE w ->
  0 <= CURRENT_CARD_BALANCE (fst (serve env r w)).
Proof.
  intro Hcard. destruct r as [| body]; unfold serve.
  - pose proof (preserves_status env w) as [Hc _].
    destruct (status env w) as [w' o]. cbn [fst] in *. now rewrite Hc.
  - unfold post_use_card.
    destruct (TransactionRequest.validate body) as [req | e]; [| exact Hcard].
    pose proof (use_card_keeps_card_nonneg env req w Hcard) as H.
    destruct (use_card env req w) as [w' o]. exact H.
Qed.

(** Whatever the requests and whatever the external services answer, a
    card balance that is not negative never becomes negative. *)
Theorem card_balance_never_negative (env : Env) (rs : list request) (w : World) :
  0 <= CURRENT_CARD_BALANCE w ->
  0 <= CURRENT_CARD_BALANCE (serve_all env rs w).
Proof.
  revert w. induction rs as [| r rs IH]; intros w Hcard; [exact Hcard |].
  cbn [serve_all]. apply IH, serve_keeps_card_nonneg, Hcard.
Qed.

Lemma card_balance_never_negative_witness :
  0 <= CURRENT_CARD_BALANCE
         (serve_all offline [POST_use_card (pay 200); GET_status; POST_use_card (pay 400)]
            seed).
Proof.
  apply (card_balance_never_negative offline
           [POST_use_card (pay 200); GET_status; POST_use_card (pay 400)] seed).
  discriminate.
Defined.

(** ** [GET /status] *)

(** [GET /status] always answers 200, whatever the external services do:
    the answer reports the two balances as they are, the price 2000, the
    wallet valued at that price, the threshold decision for the card
    balance, a gas price of 0 or more and a minimum profitable amount of at
    least 50. *)
Theorem status_always_answers (env : Env) (w : World) :
  exists r w',
    status env w = (w', Return r) /\
    StatusResponse.card_balance r = CURRENT_CARD_BALANCE w /\
    StatusResponse.eth_balance r = CURRENT_ETH_BALANCE w /\
    StatusResponse.eth_price r = 2000 /\
    StatusResponse.metamask_balance_usd r = CURRENT_ETH_BALANCE w * 2000 /\
    StatusResponse.decision r = check_card_balance (CURRENT_CARD_BALANCE w) /\
    0 <= StatusResponse.gas_price_gwei r /\
    50 <= StatusResponse.min_profitable_amount r.
Proof.
  destruct (get_gas_price_value env w) as (g & Hg & Hshape).
  assert (Gpos : 0 <= g).
  { apply gas_price_shape_nonneg.
    destruct Hshape as [H | [H | (n & Hn & _ & H)]]; eauto. }
  destruct (calculate_minimum_profitable_amount_run env 2000 (tick w)) as (c & _ & E).
  destruct (own_advice_holds_zero env (CURRENT_ETH_BALANCE w) 2000 (tick (tick w)))
    as (s & Hs & _).
  do 2 eexists. split.
  - unfold status, get_card_balance. cbv zeta.
    erewrite try_return; [reflexivity |].
    run. reflexivity.
  - cbn. repeat split; trivial. apply minimum_at_least_50.
Qed.

(** ** [auto_topup] on its own *)

(** [auto_topup] applies both of its updates or none: when it returns, the
    sale went through, the card is credited by exactly the requested
    amount, the wallet is debited by exactly the crypto amount it reports
    as sold, which is the requested amount with the margin plus the
    transaction cost, at the price of 2000, and the wallet is not
    overdrawn; when it raises, both balances are as they were.  It never
    returns without a result. *)
Theorem auto_topup_is_all_or_nothing (env : Env) (amount_usd : Q) (w : World) :
  exists cost,
    snd (calculate_transaction_cost env 2000 w) = Return cost /\
    match auto_topup env amount_usd w with
    | (w', Return (Some r)) =>
        TopupResult.status r = "success"%string /\
        TopupResult.amount_added r = amount_usd /\
        TopupResult.eth_sold r = (amount_usd * PROFIT_MARGIN + cost) / 2000 /\
        CURRENT_CARD_BALANCE w' = CURRENT_CARD_BALANCE w + amount_usd /\
        CURRENT_ETH_BALANCE w' = CURRENT_ETH_BALANCE w - TopupResult.eth_sold r /\
        0 <= CURRENT_ETH_BALANCE w'
    | (w', Return None) => False
    | (w', Raise _) => same_balances w w'
    end.
Proof.
  destruct (calculate_transaction_cost_run env 2000 w) as (cost & Eg).
  exists cost. rewrite Eg. split; [reflexivity |].
  set (eth_amount := (amount_usd * PROFIT_MARGIN + cost) / 2000).
  destruct (own_advice_holds_zero env (CURRENT_ETH_BALANCE w) 2000 (tick w))
    as (s & Hs & _).
  unfold auto_topup, auto_topup_with.
  destruct (Py.ltb (CURRENT_ETH_BALANCE w) eth_amount) eqn:Eeth.
  - erewrite try_raise; cycle 1.
    { apply bind_raise. unfold auto_sell_eth_for_card_with. cbv zeta.
      erewrite try_raise; [reflexivity |].
      run. fold eth_amount. rewrite Eeth. run. reflexivity. }
    cbn. split; reflexivity.
  - destruct (String.eqb (action s) "hold" && Py.ltb eth_amount (amount s)) eqn:Eveto.
    + erewrite try_raise; cycle 1.
      { apply bind_raise. unfold auto_sell_eth_for_card_with. cbv zeta.
        erewrite try_raise; [reflexivity |].
        run. fold eth_amount. rewrite Eeth. run. rewrite Eveto. reflexivity. }
      cbn. split; reflexivity.
    + erewrite try_return; cycle 1.
      { erewrite bind_return; cycle 1.
        { unfold auto_sell_eth_for_card_with. cbv zeta.
          erewrite try_return; [reflexivity |].
          run. fold eth_amount. rewrite Eeth. run. rewrite Eveto. run.
          reflexivity. }
        cbn [SaleResult.status String.eqb Ascii.eqb Bool.eqb].
        run. reflexivity. }
      cbn [TopupResult.status TopupResult.amount_added TopupResult.eth_sold
           SaleResult.eth_sold CURRENT_CARD_BALANCE CURRENT_ETH_BALANCE tick].
      apply ltb_false_iff in Eeth.
      repeat split. unfold Qminus. rewrite <- Qle_minus_iff. exact Eeth.
Qed.

(** ** Replenishment as a caller sees it *)

(** A payment that is answered 200 never leaves the card below the
    threshold of 100 USD: either the withdrawal left at least 100 USD, or a
    top-up brought the card to the target of 200 USD or above. *)
Theorem successful_payment_leaves_card_funded (env : Env)
    (request : TransactionRequest.t) (w w' : World) (r : CardResponse.t) :
  use_card env request w = (w', Return r) ->
  CARD_MIN_THRESHOLD <= CURRENT_CARD_BALANCE w' /\
  Decision.action (check_card_balance (CURRENT_CARD_BALANCE w')) = "skip"%string.
Proof.
  intro H. unfold use_card in H.
  assert (G : CARD_MIN_THRESHOLD <= CURRENT_CARD_BALANCE w').
  { destruct (until_advice env request w) as [w_q [[[topup eth_amount] |] | e]] eqn:U.
    - destruct (until_advice_amounts env _ _ _ _ _ U)
        as (T100 & Hshort & Hpos & _ & Hc & _).
      destruct (own_advice_holds_zero env (CURRENT_ETH_BALANCE w_q) 2000 w_q)
        as (s & Hs & _).
      pose proof (own_engine_no_veto env _ _ _ _ _ eth_amount Hs Hpos) as Hno.
      destruct (use_card_with_completed_response env _ _ _ _ _ _ _ _ U Hs Hno)
        as (r' & w'' & Hrun & Hw & _).
      rewrite Hrun in H. injection H as <- _. subst w''.
      cbn [CURRENT_CARD_BALANCE tick]. rewrite Hc.
      unfold CARD_MIN_THRESHOLD, CARD_TARGET_BALANCE in *. lra.
    - destruct (until_advice_none env (get_ai_trading_suggestion env) _ _ _ U)
        as (r' & minimum & Hrun & _ & _ & _ & _ & _ & Ethr & Hw).
      rewrite Hrun in H. injection H as <- _. subst w_q.
      apply ltb_false_iff in Ethr. exact Ethr.
    - rewrite (until_advice_raises env _ _ _ _ _ U) in H. discriminate. }
  split; [exact G |].
  unfold check_card_balance.
  apply ltb_false_iff in G. rewrite G. reflexivity.
Qed.

Lemma successful_payment_leaves_card_funded_witness :
  exists w' r,
    use_card offline (pay 150) seed = (w', Return r) /\
    CARD_MIN_THRESHOLD <= CURRENT_CARD_BALANCE w' /\
    Decision.action (check_card_balance (CURRENT_CARD_BALANCE w')) = "skip"%string.
Proof.
  do 2 eexists. split; [vm_compute; reflexivity |].
  eapply (successful_payment_leaves_card_funded offline (pay 150) seed).
  vm_compute. reflexivity.
Defined.

(** ** The wallet over a sequence of requests *)

Lemma until_advice_keeps_eth (env : Env) (request : TransactionRequest.t) (w : World) :
  CURRENT_ETH_BALANCE (fst (until_advice env request w)) = CURRENT_ETH_BALANCE w.
Proof.
  unfold until_advice. cbv zeta.
  destruct (calculate_minimum_profitable_amount_run env 2000 w) as (c1 & _ & E1).
  run.
  destruct (Py.ltb (Py.float (TransactionRequest.amount request)) _) eqn:Elow; run;
    [reflexivity |].
  destruct (Py.ltb (CURRENT_CARD_BALANCE w) _) eqn:Ecard; run; [reflexivity |].
  destruct (Py.ltb _ CARD_MIN_THRESHOLD) eqn:Ethr; [| reflexivity].
  match goal with
  | |- context [bind (calculate_minimum_profitable_amount env 2000) _ ?W] =>
      destruct (calculate_minimum_profitable_amount_run env 2000 W) as (c2 & _ & E2);
      destruct (calculate_transaction_cost_run env 2000 (tick W)) as (gas_cost & Eg)
  end.
  run.
  match goal with
  | |- context [if ?b then _ else _] => destruct b
  end; run; reflexivity.
Qed.

Lemma use_card_never_grows_wallet (env : Env) (request : TransactionRequest.t)
    (w : World) :
  CURRENT_ETH_BALANCE (fst (use_card env request w)) <= CURRENT_ETH_BALANCE w.
Proof.
  unfold use_card.
  pose proof (until_advice_keeps_eth env request w) as Hu.
  destruct (until_advice env request w) as [w_q [[[topup eth_amount] |] | e]] eqn:U.
  - destruct (until_advice_amounts env _ _ _ _ _ U)
      as (T100 & _ & Hpos & _ & _ & He & _).
    destruct (own_advice_holds_zero env (CURRENT_ETH_BALANCE w_q) 2000 w_q)
      as (s & Hs & _).
    pose proof (own_engine_no_veto env _ _ _ _ _ eth_amount Hs Hpos) as Hno.
    destruct (use_card_with_completed_response env _ _ _ _ _ _ _ _ U Hs Hno)
      as (r & w' & Hrun & Hw & _).
    rewrite Hrun. subst w'. cbn [fst CURRENT_ETH_BALANCE tick]. rewrite He.
    assert (D : 0 <= topup / 2000).
    { apply Qle_shift_div_l; [reflexivity |]. lra. }
    lra.
  - destruct (until_advice_none env (get_ai_trading_suggestion env) _ _ _ U)
      as (r & minimum & Hrun & _).
    rewrite Hrun. cbn [fst] in *. rewrite Hu. apply Qle_refl.
  - rewrite (until_advice_raises env _ _ _ _ _ U). cbn [fst] in *.
    rewrite Hu. apply Qle_refl.
Qed.

(** Whatever the requests and whatever the external services answer, the
    wallet balance never grows: the service only ever sells. *)
Theorem wallet_never_grows (env : Env) (rs : list request) (w : World) :
  CURRENT_ETH_BALANCE (serve_all env rs w) <= CURRENT_ETH_BALANCE w.
Proof.
  revert w. induction rs as [| r rs IH]; intro w; [apply Qle_refl |].
  cbn [serve_all]. eapply Qle_trans; [apply IH |].
  destruct r as [| body]; unfold serve.
  - pose proof (preserves_status env w) as [_ He].
    destruct (status env w) as [w' o]. cbn [fst] in *. rewrite He. apply Qle_refl.
  - unfold post_use_card.
    destruct (TransactionRequest.validate body) as [req | e]; [| apply Qle_refl].
    pose proof (use_card_never_grows_wallet env req w) as H.
    destruct (use_card env req w) as [w' o]. exact H.
Qed.

(** ** The minimum profitable amount at the service's price *)

(** At the price of 2000, the only price the service ever computes with,
    the minimum profitable amount is exactly 50 USD as long as the gas
    price is at most 1133 gwei: the transaction cost with the margin then
    stays below the fixed minimum. *)
Theorem minimum_is_50_under_usual_gas (env : Env) (w w1 : World) (g : Q) :
  get_gas_price env w = (w1, Return g) ->
  g <= 1133 ->
  exists minimum,
    calculate_minimum_profitable_amount env 2000 w = (tick w, Return minimum) /\
    minimum == 50.
Proof.
  intros Hg Hle.
  destruct (calculate_transaction_cost_value env 2000 w)
    as (g' & cost & Hg' & Hpos & Hc & Hcost).
  rewrite Hg' in Hg. injection Hg as _ <-.
  destruct (calculate_minimum_profitable_amount_run env 2000 w) as (c & Hc' & Hm).
  rewrite Hc in Hc'. injection Hc' as <-.
  eexists. split; [exact Hm |].
  assert (Hsmall : cost * PROFIT_MARGIN <= 50).
  { rewrite Hcost. unfold GAS_LIMIT, PROFIT_MARGIN.
    assert (E : g' / inject_Z gwei * 21000 * 2000 * (105 # 100)
                == g' * (441 # 10000)).
    { unfold gwei. change (inject_Z (10 ^ 9)) with 1000000000. field. }
    rewrite E. lra. }
  assert (Hmax : Py.max MINIMUM_PROFITABLE_USD (cost * PROFIT_MARGIN) = 50).
  { unfold Py.max, MINIMUM_PROFITABLE_USD.
    apply ltb_false_iff in Hsmall. now rewrite Hsmall. }
  rewrite Hmax. reflexivity.
Qed.

Lemma minimum_is_50_under_usual_gas_witness :
  exists minimum,
    calculate_minimum_profitable_amount offline 2000 seed = (tick seed, Return minimum) /\
    minimum == 50.
Proof.
  apply (minimum_is_50_under_usual_gas offline seed (tick seed) 50).
  - reflexivity.
  - discriminate.
Defined.
